(** * LearningPublicData: the learning-content viewer

    A shallow embedding of [LearningContentViewer] (src/script.js, and the
    manifest-driven variant kept beside it) and the properties its
    specification states about file discovery, the relevance filter,
    category derivation and rendering.

    JavaScript strings are sequences of code units; the embedding uses
    [string], whose characters stand for the code units below 256.  Values
    read from JSON files are modelled by [json]; a JSON number is
    represented by its integer value (the doubles below 2^53 that are
    integers, which print in plain decimal). *)

From Stdlib Require Import List String Ascii ZArith Bool Arith Lia.
From Stdlib Require Import Sorting.Sorted Sorting.Permutation DecimalString.
Import ListNotations.
Open Scope string_scope.

(** ** JavaScript values and the primitives the viewer calls *)

Set Warnings "-register-all".

Module Js.

Inductive json : Type :=
| JNull
| JBool (b : bool)
| JNum (z : Z)
| JStr (s : string)
| JArr (items : list json)
| JObj (fields : list (string * json)).

(** A property read yields [None] for [undefined]. *)
Definition value := option json.

(** ToBoolean: [undefined], [null], [false], [0] and the empty string are
    falsy; every array and object is truthy. *)
Definition truthy (v : value) : bool :=
  match v with
  | None | Some JNull => false
  | Some (JBool b) => b
  | Some (JNum z) => negb (z =? 0)%Z
  | Some (JStr s) => negb (s =? "")
  | Some (JArr _) | Some (JObj _) => true
  end.

(** [item && typeof item === 'object'], for a value read from JSON:
    [typeof null] is 'object' too, but [null] is falsy. *)
Definition is_object (item : json) : bool :=
  match item with
  | JArr _ | JObj _ => true
  | _ => false
  end.

Fixpoint assoc (k : string) (fields : list (string * json)) : value :=
  match fields with
  | [] => None
  | (k', v) :: rest => if k' =? k then Some v else assoc k rest
  end.

(** [item.k] on an object or array that passed [is_object], for the keys
    [type] and [summary]: own properties of a parsed object (one binding per
    key); arrays and [Object.prototype] have neither. *)
Definition get (k : string) (item : json) : value :=
  match item with
  | JObj fields => assoc k fields
  | _ => None
  end.

(** The properties every ordinary object inherits from [Object.prototype]:
    built-in functions and, under [__proto__], the prototype object
    itself. *)
Definition Object_prototype : list string :=
  ["constructor"; "__defineGetter__"; "__defineSetter__"; "hasOwnProperty";
   "__lookupGetter__"; "__lookupSetter__"; "isPrototypeOf";
   "propertyIsEnumerable"; "toString"; "valueOf"; "toLocaleString";
   "__proto__"].

(** An inherited member is no JSON value.  It is truthy, it is no array and
    it has no property [filter]; the viewer, when it stores one as its
    current data, tests and calls nothing else of it.  The embedding puts the
    object without own properties in its place, of which the same holds. *)
Definition inherited_member : json := JObj [].

(** [o[k]] on an ordinary object with the own properties [fields]: the own
    property, or else what the prototype chain gives. *)
Definition lookup (k : string) (fields : list (string * json)) : value :=
  match assoc k fields with
  | Some x => Some x
  | None =>
      if existsb (String.eqb k) Object_prototype then Some inherited_member
      else None
  end.

(** [x === s] for a string [s]. *)
Definition is_string (v : value) (s : string) : bool :=
  match v with
  | Some (JStr x) => x =? s
  | _ => false
  end.

(** [String.prototype.includes]: [needle] occurs somewhere in [s]. *)
Fixpoint includes (s needle : string) : bool :=
  prefix needle s ||
  match s with
  | EmptyString => false
  | String _ s' => includes s' needle
  end.

(** [s.replace(pat, by)] with a string pattern: the first occurrence only. *)
Fixpoint replace_first (pat by_ s : string) : string :=
  if prefix pat s then by_ ++ substring (length pat) (length s) s
  else match s with
       | EmptyString => EmptyString
       | String c s' => String c (replace_first pat by_ s')
       end.

Definition nat_to_string (n : nat) : string :=
  NilEmpty.string_of_uint (Nat.to_uint n).

Definition Z_to_string (z : Z) : string :=
  NilEmpty.string_of_int (Z.to_int z).

(** ToString, as [Array.prototype.sort] and [textContent] apply it: an array
    joins its elements with commas, printing [null] as nothing.  A number
    prints in plain decimal (the integers below 10^21 do) and an object as
    [object Object] (a parsed object does, unless it has a property
    [toString] of its own): the conversion is that of the type values the
    documents hold, which are strings, and of the values near them. *)
Fixpoint ToString (v : json) : string :=
  match v with
  | JNull => "null"
  | JBool true => "true"
  | JBool false => "false"
  | JNum z => Z_to_string z
  | JStr s => s
  | JArr items =>
      String.concat ","
        (map (fun e => match e with JNull => "" | _ => ToString e end) items)
  | JObj _ => "[object Object]"
  end.

Definition primitive (v : json) : bool := negb (is_object v).

(** SameValueZero on values parsed from JSON: primitives by value; two
    arrays or objects met at different places of a parsed document are
    different objects. *)
Definition same_value_zero (a b : json) : bool :=
  match a, b with
  | JNull, JNull => true
  | JBool x, JBool y => Bool.eqb x y
  | JNum x, JNum y => (x =? y)%Z
  | JStr x, JStr y => x =? y
  | _, _ => false
  end.

(** [[...new Set(values)]]: first occurrences, in insertion order. *)
Definition Set_add (seen : list json) (v : json) : list json :=
  if existsb (same_value_zero v) seen then seen else seen ++ [v].

Definition Set_from (values : list json) : list json :=
  fold_left Set_add values [].

(** [Array.prototype.sort()] with no comparator: by the ToString images,
    compared code unit by code unit; stable. *)
Definition sort_le (a b : json) : bool := String.leb (ToString a) (ToString b).

Fixpoint sort_insert (x : json) (sorted : list json) : list json :=
  match sorted with
  | [] => [x]
  | y :: rest => if sort_le x y then x :: y :: rest else y :: sort_insert x rest
  end.

Definition sort (values : list json) : list json :=
  fold_right sort_insert [] values.

(** Exceptions the viewer can meet.  The message of an engine-raised error
    is engine-specific and stays symbolic. *)
Inductive exn : Type :=
| EngineError       (* a TypeError (a call on something that is no function)
                       or a SyntaxError (invalid pattern or JSON text) *)
| FetchError        (* [fetch] rejected: network failure, or the abort *)
| Error (message : string).

(** What an expression evaluates to. *)
Inductive completion (A : Type) : Type :=
| Returns (a : A)
| Throws (e : exn).
Arguments Returns {A} a.
Arguments Throws {A} e.

End Js.

(** ** Regular expressions built from a string

    [new RegExp(source, 'g')] reads [source] as a pattern.  The embedding
    interprets the patterns made of ordinary characters, [.] and the greedy
    quantifiers [*], [+] and [?]; a quantifier with nothing to repeat is the
    engine's SyntaxError.  Sources that use any other pattern syntax are
    left to the engine (a parameter of the viewer below). *)

Module RegExp.

Inductive atom : Type :=
| Lit (c : ascii)
| Dot.

Inductive quant : Type := One | Star | Plus | Opt.

Definition pattern := list (atom * quant).

Inductive compiled : Type :=
| Compiled (p : pattern)
| Invalid          (* SyntaxError: nothing to repeat *)
| Beyond.          (* syntax outside the embedded fragment *)

Definition code (c : ascii) : nat := nat_of_ascii c.

(** Backslash, anchors, groups, classes, braces and alternation. *)
Definition beyond_char (c : ascii) : bool :=
  existsb (Nat.eqb (code c)) [92; 94; 36; 40; 41; 91; 93; 123; 125; 124].

Definition quant_of (c : ascii) : option quant :=
  match code c with
  | 42 => Some Star
  | 43 => Some Plus
  | 63 => Some Opt
  | _ => None
  end.

Definition atom_of (c : ascii) : atom :=
  if Nat.eqb (code c) 46 then Dot else Lit c.

(** [terms s]: the sequence of quantified atoms that [s] spells. *)
Fixpoint terms (s : string) : compiled :=
  match s with
  | EmptyString => Compiled []
  | String c s1 =>
      match quant_of c with
      | Some _ => Invalid
      | None =>
          match s1 with
          | EmptyString => Compiled [(atom_of c, One)]
          | String q s2 =>
              match quant_of q with
              | None =>
                  match terms s1 with
                  | Compiled p => Compiled ((atom_of c, One) :: p)
                  | r => r
                  end
              | Some k =>
                  match s2 with
                  | String q' _ =>
                      match quant_of q' with
                      | Some Opt => Beyond            (* a lazy quantifier *)
                      | Some _ => Invalid
                      | None =>
                          match terms s2 with
                          | Compiled p => Compiled ((atom_of c, k) :: p)
                          | r => r
                          end
                      end
                  | EmptyString => Compiled [(atom_of c, k)]
                  end
              end
          end
      end
  end.

Fixpoint any_char (f : ascii -> bool) (s : string) : bool :=
  match s with
  | EmptyString => false
  | String c s' => f c || any_char f s'
  end.

Definition compile (source : string) : compiled :=
  if any_char beyond_char source then Beyond else terms source.

(** [.] matches every character but a line terminator. *)
Definition atom_matches (a : atom) (c : ascii) : bool :=
  match a with
  | Lit x => Ascii.eqb x c
  | Dot => negb (Nat.eqb (code c) 10 || Nat.eqb (code c) 13)
  end.

(** The backtracking matcher anchored at the head of [s]: the length of the
    match the engine finds first, greedy quantifiers taking as many
    characters as the rest of the pattern allows. *)
Fixpoint match_here (p : pattern) : string -> option nat :=
  match p with
  | [] => fun _ => Some 0
  | (a, q) :: p' =>
      let rest := match_here p' in
      let fix star (s : string) : option nat :=
        match s with
        | String c s' =>
            if atom_matches a c then
              match star s' with
              | Some n => Some (S n)
              | None => rest s
              end
            else rest s
        | EmptyString => rest EmptyString
        end in
      fun s =>
        match q, s with
        | One, String c s' =>
            if atom_matches a c then option_map S (rest s') else None
        | One, EmptyString => None
        | Star, _ => star s
        | Plus, String c s' =>
            if atom_matches a c then option_map S (star s') else None
        | Plus, EmptyString => None
        | Opt, String c s' =>
            if atom_matches a c then
              match rest s' with
              | Some n => Some (S n)
              | None => rest s
              end
            else rest s
        | Opt, EmptyString => rest EmptyString
        end
  end.

(** [s.replace(re, by)] for a global [re] and a replacement text without
    [$]: matches are searched from left to right, each search starting where
    the previous match ended (one further after an empty match).  [skip]
    counts the characters of the current match still to be dropped. *)
Fixpoint replace_from (p : pattern) (by_ : string) (s : string) (skip : nat)
  {struct s} : string :=
  match skip, s with
  | S k, String _ s' => replace_from p by_ s' k
  | S _, EmptyString => EmptyString
  | O, _ =>
      match match_here p s, s with
      | Some (S n), String _ s' => by_ ++ replace_from p by_ s' n
      | Some _, String c s' => by_ ++ String c (replace_from p by_ s' 0)
      | Some _, EmptyString => by_
      | None, String c s' => String c (replace_from p by_ s' 0)
      | None, EmptyString => EmptyString
      end
  end.

Definition replace_all (p : pattern) (by_ s : string) : string :=
  replace_from p by_ s 0.

End RegExp.

(** ** The viewer of src/script.js *)

Module Script.
Import Js.

(** Text shown in the status line: literal, or a prefix followed by the
    message of a caught exception. *)
Inductive text : Type :=
| Plain (s : string)
| WithMessage (prefix : string) (e : exn).

Record status : Type := mkStatus {
  className : string;
  textContent : text;
  display : string }.

(** A category button: the [type] value its click handler closes over
    (its label is the ToString image) and whether it carries the class
    [active]. *)
Record button : Type := mkButton {
  label : json;
  active : bool }.

Inductive container : Type :=
| Markup (html : string)
| Buttons (bs : list button).

(** The fields of the object and the state of the page elements it holds. *)
Record viewer : Type := mkViewer {
  dataDirectory : string;
  contentFilter : string;
  typeFilter : string;
  availableFiles : list string;
  jsonFiles : list string;
  currentJsonData : json;             (* [JNull] for [null] *)
  fileSelect_options : list string;
  fileSelect_value : string;
  typeButtonsContainer : container;
  contentOutput : string;
  filterInfo : string;
  statusMessage : status;
  loadingIndicator : string;          (* its [style.display] *)
  change_listeners : nat }.

Definition set_jsonFiles (x : list string) (v : viewer) : viewer :=
  mkViewer (dataDirectory v) (contentFilter v) (typeFilter v)
    (availableFiles v) x (currentJsonData v) (fileSelect_options v)
    (fileSelect_value v) (typeButtonsContainer v) (contentOutput v)
    (filterInfo v) (statusMessage v) (loadingIndicator v) (change_listeners v).

Definition set_currentJsonData (x : json) (v : viewer) : viewer :=
  mkViewer (dataDirectory v) (contentFilter v) (typeFilter v)
    (availableFiles v) (jsonFiles v) x (fileSelect_options v)
    (fileSelect_value v) (typeButtonsContainer v) (contentOutput v)
    (filterInfo v) (statusMessage v) (loadingIndicator v) (change_listeners v).

(** [fileSelect.innerHTML = ''] followed by one appended option per file; a
    single-selection list shows its first option. *)
Definition set_options (x : list string) (v : viewer) : viewer :=
  mkViewer (dataDirectory v) (contentFilter v) (typeFilter v)
    (availableFiles v) (jsonFiles v) (currentJsonData v) x
    (hd "" x) (typeButtonsContainer v) (contentOutput v)
    (filterInfo v) (statusMessage v) (loadingIndicator v) (change_listeners v).

Definition set_value (x : string) (v : viewer) : viewer :=
  mkViewer (dataDirectory v) (contentFilter v) (typeFilter v)
    (availableFiles v) (jsonFiles v) (currentJsonData v) (fileSelect_options v)
    x (typeButtonsContainer v) (contentOutput v)
    (filterInfo v) (statusMessage v) (loadingIndicator v) (change_listeners v).

Definition set_typeButtons (x : container) (v : viewer) : viewer :=
  mkViewer (dataDirectory v) (contentFilter v) (typeFilter v)
    (availableFiles v) (jsonFiles v) (currentJsonData v) (fileSelect_options v)
    (fileSelect_value v) x (contentOutput v)
    (filterInfo v) (statusMessage v) (loadingIndicator v) (change_listeners v).

Definition set_contentOutput (x : string) (v : viewer) : viewer :=
  mkViewer (dataDirectory v) (contentFilter v) (typeFilter v)
    (availableFiles v) (jsonFiles v) (currentJsonData v) (fileSelect_options v)
    (fileSelect_value v) (typeButtonsContainer v) x
    (filterInfo v) (statusMessage v) (loadingIndicator v) (change_listeners v).

Definition set_filterInfo (x : string) (v : viewer) : viewer :=
  mkViewer (dataDirectory v) (contentFilter v) (typeFilter v)
    (availableFiles v) (jsonFiles v) (currentJsonData v) (fileSelect_options v)
    (fileSelect_value v) (typeButtonsContainer v) (contentOutput v)
    x (statusMessage v) (loadingIndicator v) (change_listeners v).

Definition set_statusMessage (x : status) (v : viewer) : viewer :=
  mkViewer (dataDirectory v) (contentFilter v) (typeFilter v)
    (availableFiles v) (jsonFiles v) (currentJsonData v) (fileSelect_options v)
    (fileSelect_value v) (typeButtonsContainer v) (contentOutput v)
    (filterInfo v) x (loadingIndicator v) (change_listeners v).

Definition set_loadingIndicator (x : string) (v : viewer) : viewer :=
  mkViewer (dataDirectory v) (contentFilter v) (typeFilter v)
    (availableFiles v) (jsonFiles v) (currentJsonData v) (fileSelect_options v)
    (fileSelect_value v) (typeButtonsContainer v) (contentOutput v)
    (filterInfo v) (statusMessage v) x (change_listeners v).

Definition add_listener (v : viewer) : viewer :=
  mkViewer (dataDirectory v) (contentFilter v) (typeFilter v)
    (availableFiles v) (jsonFiles v) (currentJsonData v) (fileSelect_options v)
    (fileSelect_value v) (typeButtonsContainer v) (contentOutput v)
    (filterInfo v) (statusMessage v) (loadingIndicator v)
    (S (change_listeners v)).

(** How a method leaves the viewer: normally, or by an exception raised in
    the state reached so far. *)
Inductive outcome : Type :=
| Done (v : viewer)
| Failed (e : exn) (v : viewer).

Definition state_of (o : outcome) : viewer :=
  match o with
  | Done v | Failed _ v => v
  end.

(** What one [fetch] of a URL yields: a rejection (no connection, or the
    abort that the five-second timer of [loadJsonFile] triggers), or a
    response. *)
Inductive fetch_outcome : Type :=
| Rejected
| Response (ok : bool) (http_status : nat) (content_type : option string)
           (body : option json).   (* [None]: the body is no JSON text *)

Definition dquote : string := String (ascii_of_nat 34) "".

(** *** Status line and loading indicator *)

Definition showStatusMessage (message : text) (type : string) (v : viewer)
  : viewer :=
  set_statusMessage (mkStatus ("status-message " ++ type) message "block") v.

Definition hideStatusMessage (v : viewer) : viewer :=
  set_statusMessage
    (mkStatus (className (statusMessage v)) (textContent (statusMessage v))
       "none") v.

Definition showLoading : viewer -> viewer := set_loadingIndicator "block".
Definition hideLoading : viewer -> viewer := set_loadingIndicator "none".

(** *** fileContainsFilteredContent *)

Definition filtered_item (typeFilter contentFilter : string) (item : json)
  : bool :=
  is_object item &&
  is_string (get "type" item) typeFilter &&
  truthy (get "summary" item) &&
  match get "summary" item with
  | Some (JStr s) => includes s contentFilter
  | _ => false
  end.

Definition fileContainsFilteredContent (v : viewer) (data : json) : bool :=
  match data with
  | JArr items => existsb (filtered_item (typeFilter v) (contentFilter v)) items
  | _ => false
  end.

(** *** updateFilterInfo *)

Definition filter_message (v : viewer) (count : nat) : string :=
  if (0 <? count)%nat then
    "Showing " ++ nat_to_string count ++ " files containing '<strong>" ++
    contentFilter v ++ "</strong>' in '<strong>" ++ typeFilter v ++
    "</strong>' sections"
  else
    "No files found containing '<strong>" ++ contentFilter v ++
    "</strong>' in '<strong>" ++ typeFilter v ++
    "</strong>' sections. Showing all files.".

Definition updateFilterInfo (count : nat) (v : viewer) : viewer :=
  set_filterInfo (filter_message v count) v.

(** *** loadJsonFile *)

Definition loadJsonFile (fetch : string -> fetch_outcome) (v : viewer)
    (fileName : string) : completion json :=
  match fetch (dataDirectory v ++ "/" ++ fileName) with
  | Rejected => Throws FetchError
  | Response ok http_status content_type body =>
      if negb ok then Throws (Error ("HTTP error " ++ nat_to_string http_status))
      else
        let wrong_type :=
          match content_type with
          | Some t => negb (t =? "") && negb (includes t "application/json")
          | None => false
          end in
        if wrong_type then Throws (Error "Not a JSON file")
        else match body with
             | Some data => Returns data
             | None => Throws EngineError
             end
  end.

(** *** updateTypeButtons *)

Definition well_formed (item : json) : bool :=
  is_object item && truthy (get "type" item).

(** [item.type] of an item that passed [well_formed]. *)
Definition type_of (item : json) : json :=
  match get "type" item with
  | Some t => t
  | None => JNull
  end.

Definition category_types (doc : list json) : list json :=
  sort (Set_from (map type_of (filter well_formed doc))).

Definition updateTypeButtons (v : viewer) : outcome :=
  if negb (truthy (Some (currentJsonData v))) then Done v
  else
    let v1 := set_typeButtons (Buttons []) v in
    match currentJsonData v with
    | JArr doc =>
        match category_types doc with
        | [] => Done (set_typeButtons (Markup "<p>No content types found</p>") v1)
        | types =>
            Done (set_typeButtons
                    (Buttons (map (fun t => mkButton t false) types)) v1)
        end
    | _ => Failed EngineError v1            (* [.filter] is no function *)
    end.

(** *** What the page supplies

    [marked.parse] is the markdown converter of the page; [SAMPLE_DATA] is
    the built-in data set, an object declared by another script of the page:
    its own properties, in the order of [Object.keys]; [engine_replace source
    by s] is
    [s.replace(new RegExp(source, 'g'), by)] for the sources beyond the
    embedded fragment. *)

Section Page.

Variable marked_parse : string -> string.
Variable marked_parse_other : json -> completion string.
Variable engine_replace : string -> string -> string -> completion string.
Variable SAMPLE_DATA : list (string * json).

(** *** displayContentByType *)

Definition contentItems (doc : list json) (typeName : string) : list json :=
  filter (fun item => is_object item && is_string (get "type" item) typeName)
    doc.

(** [summary.includes(needle)] for a truthy summary: a substring test on a
    string, a membership test on an array, no function otherwise. *)
Definition summary_includes (summary : json) (needle : string)
  : completion bool :=
  match summary with
  | JStr s => Returns (includes s needle)
  | JArr elems => Returns (existsb (same_value_zero (JStr needle)) elems)
  | _ => Throws EngineError
  end.

(** [item.summary && item.summary.includes(needle)], as a condition. *)
Definition summary_matches (item : json) (needle : string) : completion bool :=
  match get "summary" item with
  | Some summary =>
      if truthy (Some summary) then summary_includes summary needle
      else Returns false
  | None => Returns false
  end.

(** [contentItems.some(item => ...)]: stops at the first hit. *)
Fixpoint hasMatchingContent (items : list json) (needle : string)
  : completion bool :=
  match items with
  | [] => Returns false
  | item :: rest =>
      match summary_matches item needle with
      | Throws e => Throws e
      | Returns true => Returns true
      | Returns false => hasMatchingContent rest needle
      end
  end.

(** [\w] *)
Definition is_word (c : ascii) : bool :=
  let n := nat_of_ascii c in
  (((48 <=? n) && (n <=? 57)) || ((65 <=? n) && (n <=? 90)) ||
   ((97 <=? n) && (n <=? 122)) || (n =? 95))%nat.

(** [c.toUpperCase()] of a single character matched by [\w]. *)
Definition toUpperCase (c : ascii) : ascii :=
  let n := nat_of_ascii c in
  if ((97 <=? n) && (n <=? 122))%nat then ascii_of_nat (n - 32) else c.

(** [s.replace(/_/g, ' ')] *)
Fixpoint replace_underscores (s : string) : string :=
  match s with
  | EmptyString => EmptyString
  | String c s' =>
      String (if (nat_of_ascii c =? 95)%nat then " "%char else c)
        (replace_underscores s')
  end.

(** [s.replace(/\b\w/g, c => c.toUpperCase())]: a word character matches
    when no word character stands before it; [prev] tells whether the
    character before the head of [s] is one. *)
Fixpoint capitalize_from (prev : bool) (s : string) : string :=
  match s with
  | EmptyString => EmptyString
  | String c s' =>
      String (if is_word c && negb prev then toUpperCase c else c)
        (capitalize_from (is_word c) s')
  end.

Definition title (typeName : string) : string :=
  capitalize_from false (replace_underscores typeName).

Definition highlight_marker (contentFilter : string) : string :=
  "<span class=" ++ dquote ++ "highlight" ++ dquote ++ ">" ++ contentFilter ++
  "</span>".

(** [summary.replace(new RegExp(contentFilter, 'g'), marker)] *)
Definition highlight (contentFilter summary : string) : completion string :=
  match RegExp.compile contentFilter with
  | RegExp.Compiled p =>
      Returns (RegExp.replace_all p (highlight_marker contentFilter) summary)
  | RegExp.Invalid => Throws EngineError
  | RegExp.Beyond =>
      engine_replace contentFilter (highlight_marker contentFilter) summary
  end.

Definition div (c : completion string) : completion string :=
  match c with
  | Returns html => Returns ("<div>" ++ html ++ "</div>")
  | Throws e => Throws e
  end.

(** The body of [contentItems.forEach]: what one item appends. *)
Definition render_item (v : viewer) (typeName : string) (item : json)
  : completion string :=
  match get "summary" item with
  | None => Returns ""
  | Some summary =>
      if negb (truthy (Some summary)) then Returns ""
      else
        let guarded :=
          negb (contentFilter v =? "") && (typeName =? typeFilter v) in
        match summary with
        | JStr s =>
            if guarded && includes s (contentFilter v)
            then div (match highlight (contentFilter v) s with
                      | Returns s' => Returns (marked_parse s')
                      | Throws e => Throws e
                      end)
            else div (Returns (marked_parse s))
        | other =>
            if guarded then
              match summary_includes other (contentFilter v) with
              | Throws e => Throws e
              | Returns true => Throws EngineError  (* [.replace] is no function *)
              | Returns false => div (marked_parse_other other)
              end
            else div (marked_parse_other other)
        end
  end.

Fixpoint render_items (v : viewer) (typeName : string) (items : list json)
    (contentHtml : string) : completion string :=
  match items with
  | [] => Returns contentHtml
  | item :: rest =>
      match render_item v typeName item with
      | Throws e => Throws e
      | Returns block => render_items v typeName rest (contentHtml ++ block)
      end
  end.

Definition header (v : viewer) (typeName : string) : string :=
  "<h2>" ++ replace_first "_learnings.json" "" (fileSelect_value v) ++ " - " ++
  title typeName ++ "</h2>".

Definition filter_note (v : viewer) : string :=
  "<p><em>This section contains '" ++ contentFilter v ++ "'</em></p>".

Definition displayContentByType (typeName : string) (v : viewer) : outcome :=
  if negb (truthy (Some (currentJsonData v))) then
    Done (set_contentOutput "<p>No data loaded</p>" v)
  else
    match currentJsonData v with
    | JArr doc =>
        match contentItems doc typeName with
        | [] =>
            Done (set_contentOutput
                    ("<p>No content found for type: " ++ typeName ++ "</p>") v)
        | items =>
            match hasMatchingContent items (contentFilter v) with
            | Throws e => Failed e v
            | Returns matching =>
                let contentHtml :=
                  if (typeName =? typeFilter v) && matching
                  then header v typeName ++ filter_note v
                  else header v typeName in
                match render_items v typeName items contentHtml with
                | Throws e => Failed e v
                | Returns html => Done (set_contentOutput html v)
                end
            end
        end
    | _ => Failed EngineError v              (* [.filter] is no function *)
    end.

(** The call with the [type] value of an item of the current document.  A
    value that is no string equals the [type] of the item it was read from,
    so [contentItems] is not empty, and the call ends in an exception:
    [typeName.replace] is no function. *)
Definition displayContentByType_of (typeName : json) (v : viewer) : outcome :=
  match typeName with
  | JStr s => displayContentByType s v
  | _ => Failed EngineError v
  end.

(** *** displaySelectedContent *)

(** [currentJsonData.filter(item => ...)]: the predicate runs on every item. *)
Fixpoint matchingItems (v : viewer) (doc : list json)
  : completion (list json) :=
  match doc with
  | [] => Returns []
  | item :: rest =>
      let test :=
        if is_object item && is_string (get "type" item) (typeFilter v)
        then summary_matches item (contentFilter v)
        else Returns false in
      match test with
      | Throws e => Throws e
      | Returns keep =>
          match matchingItems v rest with
          | Throws e => Throws e
          | Returns kept => Returns (if keep then item :: kept else kept)
          end
      end
  end.

Definition activate_if (p : button -> bool) (c : container) : container :=
  match c with
  | Buttons bs =>
      Buttons (map (fun b => if p b then mkButton (label b) true else b) bs)
  | Markup html => Markup html
  end.

Definition activate_first (c : container) : container :=
  match c with
  | Buttons (b :: bs) => Buttons (mkButton (label b) true :: bs)
  | other => other
  end.

Definition and_then (o : outcome) (k : viewer -> viewer) : outcome :=
  match o with
  | Done v => Done (k v)
  | Failed e v => Failed e v
  end.

Definition displaySelectedContent (v : viewer) : outcome :=
  if negb (truthy (Some (currentJsonData v))) then
    Done (set_contentOutput "<p>Please select a file to view content</p>" v)
  else
    match currentJsonData v with
    | JArr doc =>
        match matchingItems v doc with
        | Throws e => Failed e v
        | Returns (_ :: _) =>
            and_then (displayContentByType (typeFilter v) v)
              (fun v' =>
                 set_typeButtons
                   (activate_if
                      (fun b => ToString (label b) =? typeFilter v)
                      (typeButtonsContainer v')) v')
        | Returns [] =>
            match doc with
            | firstItem :: _ =>
                if well_formed firstItem then
                  and_then (displayContentByType_of (type_of firstItem) v)
                    (fun v' =>
                       set_typeButtons
                         (activate_first (typeButtonsContainer v')) v')
                else Done v
            | [] =>
                Done (set_contentOutput
                        "<p>No content found in the selected file</p>" v)
            end
        end
    | _ => Failed EngineError v              (* [.filter] is no function *)
    end.

(** *** handleFileSelection and the change listener *)

Definition report (prefix : string) (o : outcome) : viewer :=
  match o with
  | Done v => v
  | Failed e v => showStatusMessage (WithMessage prefix e) "error" v
  end.

Definition bind (o : outcome) (k : viewer -> outcome) : outcome :=
  match o with
  | Done v => k v
  | Failed e v => Failed e v
  end.

(** [SAMPLE_DATA[fileName]] is a property read: it finds the files of the
    data set and, for a name such as constructor, what every object
    inherits. *)
Definition handleFileSelection (fetch : string -> fetch_outcome)
    (fileName : string) (v : viewer) : viewer :=
  let loaded :=
    if truthy (lookup fileName SAMPLE_DATA)
    then Returns (match lookup fileName SAMPLE_DATA with
                  | Some data => data
                  | None => JNull
                  end)
    else loadJsonFile fetch v fileName in
  report "Error: "
    match loaded with
    | Throws e => Failed e v
    | Returns data =>
        bind (updateTypeButtons (set_currentJsonData data v))
          displaySelectedContent
    end.

(** The listener of [change]: the page has already made [fileName] the
    value of the list. *)
Definition on_change (fetch : string -> fetch_outcome) (fileName : string)
    (v : viewer) : viewer :=
  hideLoading
    (handleFileSelection fetch fileName (showLoading (set_value fileName v))).

Definition setupEventListeners : viewer -> viewer := add_listener.

(** The click listener that [updateTypeButtons] gives the button at
    position [i]: every button loses the class [active], the clicked one
    gets it, and its type is rendered.  The buttons of the page were built
    from the current document or, when the current value is falsy, are left
    from an earlier one. *)
Definition deactivate (b : button) : button := mkButton (label b) false.

Fixpoint activate_nth (i : nat) (bs : list button) : list button :=
  match bs, i with
  | [], _ => []
  | b :: rest, O => mkButton (label b) true :: rest
  | b :: rest, S j => b :: activate_nth j rest
  end.

Definition on_click (i : nat) (v : viewer) : outcome :=
  match typeButtonsContainer v with
  | Buttons bs =>
      match nth_error bs i with
      | Some b =>
          let v1 :=
            set_typeButtons (Buttons (activate_nth i (map deactivate bs))) v in
          if negb (truthy (Some (currentJsonData v)))
          then Done (set_contentOutput "<p>No data loaded</p>" v1)
          else displayContentByType_of (label b) v1
      | None => Done v
      end
  | Markup _ => Done v
  end.

(** *** tryLoadingFiles, useSampleData and init *)

(** The loop over [availableFiles]; the [n]-th request of the run is
    answered by [net n].  The timer that hides the status line three
    seconds after [tryLoadingFiles] is not part of the embedding. *)
Fixpoint load_each (net : nat -> string -> fetch_outcome) (v : viewer)
    (n : nat) (files loadedFiles filteredFiles : list string)
  : list string * list string :=
  match files with
  | [] => (loadedFiles, filteredFiles)
  | fileName :: rest =>
      match loadJsonFile (net n) v fileName with
      | Returns data =>
          load_each net v (S n) rest (loadedFiles ++ [fileName])
            (if fileContainsFilteredContent v data
             then filteredFiles ++ [fileName] else filteredFiles)
      | Throws _ => load_each net v (S n) rest loadedFiles filteredFiles
      end
  end.

Definition displayFiles (loadedFiles filteredFiles : list string)
  : list string :=
  match filteredFiles with
  | [] => loadedFiles
  | _ => filteredFiles
  end.

Definition tryLoadingFiles (net : nat -> string -> fetch_outcome) (v : viewer)
  : outcome :=
  let v1 := showStatusMessage (Plain "Attempting to load JSON files...") "info"
              (showLoading v) in
  let '(loadedFiles, filteredFiles) :=
    load_each net v1 0 (availableFiles v1) [] [] in
  let v2 := set_jsonFiles loadedFiles v1 in
  match loadedFiles with
  | [] => Failed (Error "No files could be loaded") (hideLoading v2)
  | _ =>
      let v3 := updateFilterInfo (List.length filteredFiles) v2 in
      let shown := displayFiles loadedFiles filteredFiles in
      let v4 := setupEventListeners (set_options shown v3) in
      match shown with
      | first :: _ =>
          let v5 := handleFileSelection
                      (net (List.length (availableFiles v1))) first
                      (set_value first v4) in
          Done (hideLoading
                  (showStatusMessage
                     (Plain ("Loaded " ++
                             nat_to_string (List.length loadedFiles) ++
                             " files successfully")) "info" v5))
      | [] => Done (hideLoading v4)
      end
  end.

Definition useSampleData (v : viewer) : outcome :=
  let files := map fst SAMPLE_DATA in
  let v1 := updateFilterInfo (List.length files) (set_jsonFiles files v) in
  let v2 := setupEventListeners (set_options files v1) in
  match SAMPLE_DATA with
  | (firstFile, data) :: _ =>
      bind (updateTypeButtons
              (set_currentJsonData data (set_value firstFile v2)))
        displaySelectedContent
  | [] => Done v2
  end.

Definition init (net : nat -> string -> fetch_outcome) (v : viewer) : outcome :=
  match tryLoadingFiles net v with
  | Done v' => Done v'
  | Failed _ v' =>
      useSampleData
        (showStatusMessage
           (Plain "Could not load data files. Using sample data instead.")
           "error" v')
  end.

End Page.

End Script.

(** ** The manifest-driven variant (src/unnamed/part_000)

    The same class in the form that reads the list of files from
    [file_manifest.json].  It has no status line, no loading indicator and no
    built-in data set; the fields of [Script.viewer] that stand for them are
    left as they are.  Where a method has the same text as in src/script.js,
    the definition of [Script] is used. *)

Module Manifest.
Import Js Script.

Section Page.

Variable marked_parse : string -> string.
Variable marked_parse_other : json -> completion string.
Variable engine_replace : string -> string -> string -> completion string.
(** [error.message] of a caught exception. *)
Variable message : exn -> string.

(** [data.some(item => ...)]: [data] is used as it was parsed. *)
Definition fileContainsFilteredContent (v : viewer) (data : json)
  : completion bool :=
  match data with
  | JArr items =>
      Returns (existsb (filtered_item (typeFilter v) (contentFilter v)) items)
  | _ => Throws EngineError                 (* [.some] is no function *)
  end.

(** [loadJsonFile] catches every failure and returns a one-entry document
    that describes it. *)
Definition error_document (e : exn) : json :=
  JArr [JObj [("type", JStr "error");
              ("summary", JStr ("Error loading file: " ++ message e));
              ("data", JNull)]].

Definition loadJsonFile (fetch : string -> fetch_outcome) (v : viewer)
    (fileName : string) : json :=
  match fetch (dataDirectory v ++ "/" ++ fileName) with
  | Rejected => error_document FetchError
  | Response _ _ _ (Some data) => data
  | Response _ _ _ None => error_document EngineError
  end.

Definition updateTypeButtons (v : viewer) : outcome :=
  if negb (truthy (Some (currentJsonData v))) then Done v
  else
    let v1 := set_typeButtons (Buttons []) v in
    match currentJsonData v with
    | JArr doc =>
        Done (set_typeButtons
                (Buttons (map (fun t => mkButton t false) (category_types doc)))
                v1)
    | _ => Failed EngineError v1
    end.

(** [c.toUpperCase()] of one code unit below 256.  The letters a to z and
    the letters U+00E0 to U+00FE (the division sign U+00F7 is none) have
    their capital 32 places below, and the capital of U+00DF is SS.  The
    capitals of U+00B5 and U+00FF are code units above 255, which [string]
    does not hold: a label that starts with one of the two lies outside the
    embedding (the definition keeps the character). *)
Definition upper_case (c : ascii) : string :=
  let n := nat_of_ascii c in
  if (n =? 223)%nat then "SS"
  else if (((97 <=? n) && (n <=? 122)) ||
           ((224 <=? n) && (n <=? 254) && negb (n =? 247)))%nat
       then String (ascii_of_nat (n - 32)) ""
       else String c "".

(** [s.charAt(0).toUpperCase() + s.slice(1)] *)
Definition capitalize (s : string) : string :=
  match s with
  | EmptyString => EmptyString
  | String c s' => upper_case c ++ s'
  end.

Definition title (typeName : string) : string :=
  capitalize (replace_first "_" " " typeName).

Definition header (v : viewer) (typeName : string) : string :=
  "<h2>" ++ replace_first "_learnings.json" "" (fileSelect_value v) ++ " - " ++
  title typeName ++ "</h2>".

Definition filter_note (v : viewer) : string :=
  "<em>This section contains '" ++ contentFilter v ++ "'</em>".

Definition displayContentByType (typeName : string) (v : viewer) : outcome :=
  if negb (truthy (Some (currentJsonData v))) then
    Done (set_contentOutput "<p>No data loaded</p>" v)
  else
    match currentJsonData v with
    | JArr doc =>
        match contentItems doc typeName with
        | [] =>
            Done (set_contentOutput
                    ("<p>No content found for type: " ++ typeName ++ "</p>") v)
        | items =>
            match hasMatchingContent items (contentFilter v) with
            | Throws e => Failed e v
            | Returns matching =>
                let contentHtml :=
                  if (typeName =? typeFilter v) && matching
                  then header v typeName ++ filter_note v
                  else header v typeName in
                match render_items marked_parse marked_parse_other
                        engine_replace v typeName items contentHtml with
                | Throws e => Failed e v
                | Returns html => Done (set_contentOutput html v)
                end
            end
        end
    | _ => Failed EngineError v
    end.

Definition displayContentByType_of (typeName : json) (v : viewer) : outcome :=
  match typeName with
  | JStr s => displayContentByType s v
  | _ => Failed EngineError v
  end.

Definition displaySelectedContent (v : viewer) : outcome :=
  if negb (truthy (Some (currentJsonData v))) then
    Done (set_contentOutput "<p>Please select a file to view content</p>" v)
  else
    match currentJsonData v with
    | JArr doc =>
        match matchingItems v doc with
        | Throws e => Failed e v
        | Returns (_ :: _) =>
            and_then (displayContentByType (typeFilter v) v)
              (fun v' =>
                 set_typeButtons
                   (activate_if
                      (fun b => ToString (label b) =? typeFilter v)
                      (typeButtonsContainer v')) v')
        | Returns [] =>
            match doc with
            | firstItem :: _ =>
                if well_formed firstItem then
                  and_then (displayContentByType_of (type_of firstItem) v)
                    (fun v' =>
                       set_typeButtons
                         (activate_first (typeButtonsContainer v')) v')
                else Done v
            | [] =>
                Done (set_contentOutput
                        "<p>No content found in the selected file</p>" v)
            end
        end
    | _ => Failed EngineError v
    end.

(** No [try] here: an exception of the rendering leaves the method. *)
Definition handleFileSelection (fetch : string -> fetch_outcome)
    (fileName : string) (v : viewer) : outcome :=
  bind (updateTypeButtons
          (set_currentJsonData (loadJsonFile fetch v fileName) v))
    displaySelectedContent.

Fixpoint ends_with (s suffix : string) : bool :=
  (s =? suffix) ||
  match s with
  | EmptyString => false
  | String _ s' => ends_with s' suffix
  end.

(** [files.filter(file => file.endsWith('_learnings.json'))] on the parsed
    manifest: an entry that is no string has no [endsWith]. *)
Fixpoint learnings_files (files : list json) : completion (list string) :=
  match files with
  | [] => Returns []
  | JStr file :: rest =>
      match learnings_files rest with
      | Returns kept =>
          Returns (if ends_with file "_learnings.json" then file :: kept
                   else kept)
      | Throws e => Throws e
      end
  | _ :: _ => Throws EngineError
  end.

Fixpoint filter_each (net : nat -> string -> fetch_outcome) (v : viewer)
    (n : nat) (files filteredFiles : list string) : completion (list string) :=
  match files with
  | [] => Returns filteredFiles
  | fileName :: rest =>
      match fileContainsFilteredContent v (loadJsonFile (net n) v fileName) with
      | Throws e => Throws e
      | Returns hit =>
          filter_each net v (S n) rest
            (if hit then filteredFiles ++ [fileName] else filteredFiles)
      end
  end.

Definition caught (o : outcome) : viewer :=
  match o with
  | Done v => v
  | Failed e v =>
      set_contentOutput ("<p>Error loading files: " ++ message e ++ "</p>") v
  end.

(** Request 0 of the run asks for the manifest, request [n] for the [n]-th
    candidate, the one after the last candidate for the first shown file. *)
Definition fetchJsonFiles (net : nat -> string -> fetch_outcome) (v : viewer)
  : viewer :=
  caught
    match net 0 (dataDirectory v ++ "/file_manifest.json") with
    | Rejected => Failed FetchError v
    | Response _ _ _ None => Failed EngineError v
    | Response _ _ _ (Some (JArr files)) =>
        match learnings_files files with
        | Throws e => Failed e v
        | Returns candidates =>
            let v1 := set_jsonFiles candidates v in
            match filter_each net v1 1 candidates [] with
            | Throws e => Failed e v1
            | Returns filteredFiles =>
                let v2 := updateFilterInfo (List.length filteredFiles) v1 in
                let shown := displayFiles candidates filteredFiles in
                let v3 := set_options shown v2 in
                match shown with
                | first :: _ =>
                    handleFileSelection (net (S (List.length candidates)))
                      first (set_value first v3)
                | [] => Done v3
                end
            end
        end
    | Response _ _ _ (Some _) => Failed EngineError v
    end.

Definition init (net : nat -> string -> fetch_outcome) (v : viewer) : viewer :=
  setupEventListeners (fetchJsonFiles net v).

Definition on_change (fetch : string -> fetch_outcome) (fileName : string)
    (v : viewer) : outcome :=
  handleFileSelection fetch fileName (set_value fileName v).

End Page.

End Manifest.

(** ** A concrete page

    The viewer as its constructor leaves it on a page whose elements are
    still empty, with the default filter, and stand-ins for what the page
    supplies; used where a property is evaluated on an explicit input. *)

Import Js Script.

Definition new_viewer (dataDirectory contentFilter typeFilter : string)
  : viewer :=
  mkViewer dataDirectory contentFilter typeFilter
    ["Unity-MLAgents-LoadFromHub-Assets_learnings.json"] [] JNull
    [] "" (Buttons []) "" "" (mkStatus "" (Plain "") "") "" 0.

Definition default_viewer : viewer :=
  new_viewer "./data" "Testing Frameworks" "tech_choices".

(** A converter that wraps its input in a paragraph. *)
Definition paragraph (s : string) : string := "<p>" ++ s ++ "</p>".

(** A converter that rejects what is no string, and an engine that rejects
    every pattern beyond the embedded fragment. *)
Definition no_converter (_ : json) : completion string :=
  Throws (Error "marked").

Definition no_engine (_ _ _ : string) : completion string :=
  Throws EngineError.

(** The record [{type, summary}]. *)
Definition entry (type summary : string) : json :=
  JObj [("type", JStr type); ("summary", JStr summary)].

(** ** Notions used in the statements *)

(** [s] contains [needle] as a contiguous run of characters. *)
Definition substring_of (needle s : string) : Prop :=
  exists before after, s = before ++ needle ++ after.

(** The relevance test as the specification words it: some entry is an
    object whose type is the type filter and whose summary is a string that
    contains the content filter. *)
Definition relevant_as_stated (typeFilter contentFilter : string)
    (doc : list json) : Prop :=
  exists fields s,
    In (JObj fields) doc /\
    assoc "type" fields = Some (JStr typeFilter) /\
    assoc "summary" fields = Some (JStr s) /\
    substring_of contentFilter s.

(** The same with a summary that is not empty. *)
Definition relevant (typeFilter contentFilter : string) (doc : list json)
  : Prop :=
  exists fields s,
    In (JObj fields) doc /\
    assoc "type" fields = Some (JStr typeFilter) /\
    assoc "summary" fields = Some (JStr s) /\
    s <> "" /\
    substring_of contentFilter s.

(** The order of [sort] on labels: code unit by code unit. *)
Definition label_le (a b : string) : Prop := String.leb a b = true.

(** What an outcome shows in the content region, or the exception. *)
Definition rendered (o : outcome) : completion string :=
  match o with
  | Done v => Returns (contentOutput v)
  | Failed e _ => Throws e
  end.

(** What [displayContentByType] builds for the entries of a category that
    is not empty. *)
Definition category_html (marked_parse : string -> string)
    (marked_parse_other : json -> completion string)
    (engine_replace : string -> string -> string -> completion string)
    (v : viewer) (typeName : string) (items : list json)
  : completion string :=
  match hasMatchingContent items (contentFilter v) with
  | Throws e => Throws e
  | Returns matching =>
      render_items marked_parse marked_parse_other engine_replace v typeName
        items
        (if (typeName =? typeFilter v) && matching
         then header v typeName ++ filter_note v
         else header v typeName)
  end.

(** The candidates of one run with what loading each of them gave. *)
Fixpoint probes (net : nat -> string -> fetch_outcome) (v : viewer) (n : nat)
    (files : list string) : list (string * completion json) :=
  match files with
  | [] => []
  | fileName :: rest =>
      (fileName, loadJsonFile (net n) v fileName) :: probes net v (S n) rest
  end.

(** The candidate loaded; the candidate loaded and its content matched. *)
Definition loaded (p : string * completion json) : bool :=
  match snd p with
  | Returns _ => true
  | Throws _ => false
  end.

Definition matched (v : viewer) (p : string * completion json) : bool :=
  match snd p with
  | Returns data => fileContainsFilteredContent v data
  | Throws _ => false
  end.

Definition loaded_files (ps : list (string * completion json)) : list string :=
  map fst (filter loaded ps).

Definition matched_files (v : viewer) (ps : list (string * completion json))
  : list string :=
  map fst (filter (matched v) ps).

(** The list of files and the status line, which rendering leaves alone. *)
Definition files_and_status (v : viewer) : list string * status :=
  (fileSelect_options v, statusMessage v).

(** The parts of a title. *)
Definition underscore (c : ascii) : bool := (nat_of_ascii c =? 95)%nat.

(** A letter or a digit: the characters that make up a word of a title. *)
Definition alnum (c : ascii) : bool := is_word c && negb (underscore c).

(** Position [i] of [s] opens a word: nothing, or no letter or digit, stands
    before it. *)
Definition opens_word (s : string) (i : nat) : bool :=
  match i with
  | O => true
  | S j => match String.get j s with
           | Some p => negb (alnum p)
           | None => true
           end
  end.

(** The character of the title at a position that holds [c]. *)
Definition title_char (s : string) (i : nat) (c : ascii) : ascii :=
  if underscore c then " "%char
  else if alnum c && opens_word s i then toUpperCase c
  else c.

(** A character without a meaning of its own in a pattern, a text made of
    such characters, and the pattern that matches exactly that text. *)
Definition ordinary (c : ascii) : bool :=
  negb (RegExp.beyond_char c) &&
  match RegExp.quant_of c with None => true | Some _ => false end &&
  negb (RegExp.code c =? 46)%nat.

Fixpoint plain (s : string) : bool :=
  match s with
  | EmptyString => true
  | String c s' => ordinary c && plain s'
  end.

Fixpoint literal (s : string) : RegExp.pattern :=
  match s with
  | EmptyString => []
  | String c s' => (RegExp.Lit c, RegExp.One) :: literal s'
  end.

(** [wrapped needle marker s out]: [out] is [s] with occurrences of
    [needle] replaced by [marker], and no stretch between two replaced
    occurrences (or before the first, or after the last) contains
    [needle]. *)
Inductive wrapped (needle marker : string) : string -> string -> Prop :=
| wrapped_tail (gap : string) :
    includes gap needle = false -> wrapped needle marker gap gap
| wrapped_hit (gap rest out : string) :
    includes gap needle = false ->
    wrapped needle marker rest out ->
    wrapped needle marker (gap ++ needle ++ rest) (gap ++ marker ++ out).

(** The fields that neither a selection nor a rendering writes. *)
Definition untouched (v : viewer) :=
  (dataDirectory v, contentFilter v, typeFilter v, availableFiles v,
   jsonFiles v, fileSelect_options v, fileSelect_value v, filterInfo v,
   loadingIndicator v, change_listeners v).

(** Every summary of the document is absent, falsy or a string: the
    documents on which no summary test can raise an exception. *)
Definition plain_summary (item : json) : bool :=
  match get "summary" item with
  | None | Some (JStr _) => true
  | Some other => negb (truthy (Some other))
  end.

Definition plain_summaries (doc : list json) : bool :=
  forallb plain_summary doc.

(** A content type that [loadJsonFile] lets through. *)
Definition accepted_type (content_type : option string) : Prop :=
  content_type = None \/ content_type = Some "" \/
  exists t, content_type = Some t /\ substring_of "application/json" t.

(** The manifest variant: the candidates of one run with the document that
    loading each of them gave (a failed load gives the error document), and
    the candidates whose document matches the filter. *)
Fixpoint manifest_probes (message : exn -> string)
    (net : nat -> string -> fetch_outcome) (v : viewer) (n : nat)
    (files : list string) : list (string * json) :=
  match files with
  | [] => []
  | fileName :: rest =>
      (fileName, Manifest.loadJsonFile message (net n) v fileName)
      :: manifest_probes message net v (S n) rest
  end.

Definition manifest_matched (v : viewer) (ps : list (string * json))
  : list string :=
  map fst (filter (fun p => fileContainsFilteredContent v (snd p)) ps).

(** The manifest variant takes whatever JSON body a request gives, whatever
    the status of the response; a load fails there when the request is
    rejected or the body is no JSON text. *)
Definition fetched (r : fetch_outcome) : bool :=
  match r with
  | Response _ _ _ (Some _) => true
  | _ => false
  end.

(** The candidates of one run of the manifest variant whose load did not
    fail. *)
Fixpoint manifest_loaded (net : nat -> string -> fetch_outcome) (v : viewer)
    (n : nat) (files : list string) : list string :=
  match files with
  | [] => []
  | fileName :: rest =>
      if fetched (net n (dataDirectory v ++ "/" ++ fileName))
      then fileName :: manifest_loaded net v (S n) rest
      else manifest_loaded net v (S n) rest
  end.

(** What [updateTypeButtons] puts into the container for a document. *)
Definition buttons_of (doc : list json) : container :=
  match category_types doc with
  | [] => Markup "<p>No content types found</p>"
  | types => Buttons (map (fun t => mkButton t false) types)
  end.

(** A viewer with three candidates, and a server that holds some files. *)
Definition three_candidates : viewer :=
  mkViewer "./data" "Testing Frameworks" "tech_choices"
    ["a_learnings.json"; "b_learnings.json"; "c_learnings.json"] [] JNull
    [] "" (Buttons []) "" "" (mkStatus "" (Plain "") "") "" 0.

Definition serve (files : list (string * json)) (_ : nat) (url : string)
  : fetch_outcome :=
  match assoc url files with
  | Some data => Response true 200 (Some "application/json") (Some data)
  | None => Response false 404 (Some "text/html") None
  end.

(** ** Strings *)

Lemma prefix_iff (p s : string) :
  prefix p s = true <-> exists rest, s = p ++ rest.
Proof.
  revert s; induction p as [|a p IH]; intros s.
  - split; [intros _; now exists s | now destruct s].
  - destruct s as [|b s]; simpl.
    + split; [discriminate | intros [rest H]; discriminate].
    + destruct (ascii_dec a b) as [->|Hab].
      * rewrite IH. split; intros [rest H]; exists rest.
        -- now rewrite H.
        -- now injection H.
      * split; [discriminate | intros [rest H]; injection H; congruence].
Qed.

Lemma includes_iff (s needle : string) :
  includes s needle = true <-> substring_of needle s.
Proof.
  unfold substring_of.
  induction s as [|c s IH]; cbn [includes].
  - rewrite orb_false_r, prefix_iff. split.
    + intros [rest H]. now exists "", rest.
    + intros [before [after H]]. destruct before; simpl in H.
      * now exists after.
      * discriminate.
  - rewrite orb_true_iff, prefix_iff, IH. split.
    + intros [[rest H] | [before [after H]]].
      * now exists "", rest.
      * exists (String c before), after. simpl. now rewrite H.
    + intros [before [after H]]. destruct before as [|b before]; simpl in H.
      * left. now exists after.
      * right. injection H as _ H. now exists before, after.
Qed.

Lemma includes_empty (s : string) : includes s "" = true.
Proof. destruct s; reflexivity. Qed.

(** ** The relevance predicate *)

Lemma filtered_item_iff (tf cf : string) (item : json) :
  filtered_item tf cf item = true <->
  exists fields s,
    item = JObj fields /\
    assoc "type" fields = Some (JStr tf) /\
    assoc "summary" fields = Some (JStr s) /\
    s <> "" /\ substring_of cf s.
Proof.
  unfold filtered_item. split.
  - intros H. repeat (apply andb_true_iff in H; destruct H as [H ?]).
    destruct item as [| | | |items|fields]; try discriminate.
    simpl in *. exists fields.
    destruct (assoc "summary" fields) as [[| | |s| |]|]; try discriminate.
    exists s. split; [reflexivity|].
    destruct (assoc "type" fields) as [[| | |t| |]|]; try discriminate.
    simpl in *.
    match goal with Ht : (t =? tf) = true |- _ =>
      apply String.eqb_eq in Ht; subst t end.
    split; [reflexivity|]. split; [reflexivity|].
    split.
    + match goal with Hs : negb (s =? "") = true |- _ =>
        apply negb_true_iff, String.eqb_neq in Hs; exact Hs end.
    + now apply includes_iff.
  - intros [fields [s [-> [Ht [Hs [Hne Hsub]]]]]]. simpl.
    rewrite Ht, Hs. simpl. rewrite String.eqb_refl. simpl.
    apply String.eqb_neq in Hne. rewrite Hne. simpl.
    now apply includes_iff.
Qed.

(** C2, as amended.  A document matches the filter exactly when one of its
    entries is an object whose [type] is the type filter and whose [summary]
    is a string, not empty, that contains the content filter as a substring
    (compared character by character, hence case-sensitive). *)
Theorem relevance_predicate (v : viewer) (doc : list json) :
  fileContainsFilteredContent v (JArr doc) = true <->
  relevant (typeFilter v) (contentFilter v) doc.
Proof.
  unfold relevant. simpl. rewrite existsb_exists. split.
  - intros [item [Hin H]]. apply filtered_item_iff in H.
    destruct H as [fields [s [-> H]]]. now exists fields, s.
  - intros [fields [s [Hin H]]]. exists (JObj fields). split; [exact Hin|].
    apply filtered_item_iff. now exists fields, s.
Qed.

(** C2 as stated fails when the content filter is empty: an entry of the
    filtered type with an empty summary contains the empty filter, and the
    document is not classified as matching. *)
Lemma relevance_as_stated_fails :
  let v := new_viewer "./data" "" "tech_choices" in
  let doc := [entry "tech_choices" ""] in
  relevant_as_stated (typeFilter v) (contentFilter v) doc /\
  fileContainsFilteredContent v (JArr doc) = false.
Proof.
  split; [|reflexivity].
  exists [("type", JStr "tech_choices"); ("summary", JStr "")], "".
  repeat split; try reflexivity.
  - now left.
  - now exists "", "".
Qed.

(** The manifest variant runs the same test on every array. *)
Lemma manifest_relevance_agrees (v : viewer) (doc : list json) :
  Manifest.fileContainsFilteredContent v (JArr doc) =
  Returns (fileContainsFilteredContent v (JArr doc)).
Proof. reflexivity. Qed.

(** With a content filter that is not empty the two readings agree. *)
Lemma relevant_as_stated_iff (tf cf : string) (doc : list json) :
  cf <> "" -> (relevant_as_stated tf cf doc <-> relevant tf cf doc).
Proof.
  intros Hcf. split.
  - intros [fields [s [Hin [Ht [Hs Hsub]]]]]. exists fields, s.
    repeat split; try assumption.
    intros ->. destruct Hsub as [before [after H]].
    destruct before; [destruct cf; [congruence | discriminate] | discriminate].
  - intros [fields [s [Hin [Ht [Hs [_ Hsub]]]]]]. now exists fields, s.
Qed.

(** ** Sets and sorting of type values *)

Lemma same_value_zero_eq (a b : json) : same_value_zero a b = true -> a = b.
Proof.
  destruct a, b; simpl; try discriminate; intros H.
  - reflexivity.
  - f_equal. now apply Bool.eqb_prop.
  - f_equal. now apply Z.eqb_eq.
  - f_equal. now apply String.eqb_eq.
Qed.

Lemma same_value_zero_refl (a : json) :
  primitive a = true -> same_value_zero a a = true.
Proof.
  destruct a; simpl; try discriminate; intros _.
  - reflexivity.
  - apply Bool.eqb_reflx.
  - apply Z.eqb_refl.
  - apply String.eqb_refl.
Qed.

Lemma In_Set_add (seen : list json) (v x : json) :
  In x (Set_add seen v) <-> In x seen \/ x = v.
Proof.
  unfold Set_add. destruct (existsb (same_value_zero v) seen) eqn:E.
  - split; [now left|]. intros [H | ->]; [exact H|].
    apply existsb_exists in E. destruct E as [y [Hy E]].
    apply same_value_zero_eq in E. now subst y.
  - rewrite in_app_iff. simpl. intuition.
Qed.

Lemma In_fold_Set_add (values seen : list json) (x : json) :
  In x (fold_left Set_add values seen) <-> In x seen \/ In x values.
Proof.
  revert seen. induction values as [|v values IH]; intros seen; simpl.
  - intuition.
  - rewrite IH, In_Set_add. intuition.
Qed.

Lemma In_Set_from (values : list json) (x : json) :
  In x (Set_from values) <-> In x values.
Proof. unfold Set_from. rewrite In_fold_Set_add. simpl. intuition. Qed.

Lemma NoDup_Set_add (seen : list json) (v : json) :
  NoDup (filter primitive seen) -> NoDup (filter primitive (Set_add seen v)).
Proof.
  intros H. unfold Set_add.
  destruct (existsb (same_value_zero v) seen) eqn:E; [exact H|].
  rewrite filter_app. simpl. destruct (primitive v) eqn:P.
  - apply NoDup_app; [exact H | repeat constructor; intros [] |].
    intros x Hx [<- | []]. apply filter_In in Hx. destruct Hx as [Hx _].
    assert (existsb (same_value_zero v) seen = true) as C; [|congruence].
    apply existsb_exists. exists v. split; [exact Hx|].
    now apply same_value_zero_refl.
  - now rewrite app_nil_r.
Qed.

Lemma NoDup_Set_from (values : list json) :
  NoDup (filter primitive (Set_from values)).
Proof.
  unfold Set_from.
  assert (forall seen, NoDup (filter primitive seen) ->
            NoDup (filter primitive (fold_left Set_add values seen))) as G.
  { induction values as [|v values IH]; intros seen H; simpl.
    - exact H.
    - apply IH. now apply NoDup_Set_add. }
  apply G. constructor.
Qed.

Lemma sort_insert_perm (x : json) (l : list json) :
  Permutation (sort_insert x l) (x :: l).
Proof.
  induction l as [|y l IH]; simpl; [reflexivity|].
  destruct (sort_le x y); [reflexivity|].
  rewrite IH. apply perm_swap.
Qed.

Lemma sort_perm (l : list json) : Permutation (sort l) l.
Proof.
  induction l as [|x l IH]; simpl; [reflexivity|].
  rewrite sort_insert_perm. now constructor.
Qed.

Lemma filter_perm (p : json -> bool) (l l' : list json) :
  Permutation l l' -> Permutation (filter p l) (filter p l').
Proof.
  induction 1 as [|x l l' _ IH|x y l|l l' l'' _ IH1 _ IH2]; simpl.
  - reflexivity.
  - destruct (p x); [now constructor | exact IH].
  - destruct (p x), (p y); try reflexivity. apply perm_swap.
  - now rewrite IH1.
Qed.

Lemma sort_insert_sorted (x : json) (l : list json) :
  Sorted (fun a b => label_le (ToString a) (ToString b)) l ->
  Sorted (fun a b => label_le (ToString a) (ToString b)) (sort_insert x l).
Proof.
  induction l as [|y l IH]; intros H; simpl.
  - repeat constructor.
  - destruct (sort_le x y) eqn:E.
    + constructor; [exact H|]. constructor. exact E.
    + inversion H as [|? ? Hl Hhd]; subst. constructor; [now apply IH|].
      assert (label_le (ToString y) (ToString x)) as Hyx.
      { destruct (String.leb_total (ToString x) (ToString y)) as [C|C];
          [unfold sort_le in E; congruence | exact C]. }
      destruct l as [|z l]; simpl.
      * constructor. exact Hyx.
      * destruct (sort_le x z); constructor; [exact Hyx|].
        now inversion Hhd.
Qed.

Lemma sort_sorted (l : list json) :
  Sorted (fun a b => label_le (ToString a) (ToString b)) (sort l).
Proof.
  induction l as [|x l IH]; simpl; [constructor|].
  now apply sort_insert_sorted.
Qed.

Lemma Sorted_map_ToString (l : list json) :
  Sorted (fun a b => label_le (ToString a) (ToString b)) l ->
  Sorted label_le (map ToString l).
Proof.
  induction 1 as [|x l _ IH Hhd]; simpl; constructor; [exact IH|].
  destruct Hhd; simpl; constructor. assumption.
Qed.

(** ** Category derivation *)

Lemma In_sort (l : list json) (x : json) : In x (sort l) <-> In x l.
Proof.
  split; apply Permutation_in; [apply sort_perm | symmetry; apply sort_perm].
Qed.

Lemma well_formed_iff (item t : json) :
  well_formed item = true /\ type_of item = t <->
  exists fields,
    item = JObj fields /\ assoc "type" fields = Some t /\
    truthy (Some t) = true.
Proof.
  unfold well_formed, type_of. split.
  - intros [H <-]. apply andb_true_iff in H. destruct H as [Ho Ht].
    destruct item as [| | | |items|fields]; try discriminate.
    exists fields. simpl in *.
    destruct (assoc "type" fields) as [t|]; [|discriminate]. now repeat split.
  - intros [fields [-> [Ht Htruthy]]]. simpl. rewrite Ht. now split.
Qed.

Lemma In_category_types (doc : list json) (t : json) :
  In t (category_types doc) <->
  exists fields,
    In (JObj fields) doc /\ assoc "type" fields = Some t /\
    truthy (Some t) = true.
Proof.
  unfold category_types. rewrite In_sort, In_Set_from, in_map_iff. split.
  - intros [item [Ht Hin]]. apply filter_In in Hin. destruct Hin as [Hin Hwf].
    destruct (proj1 (well_formed_iff item t) (conj Hwf Ht))
      as [fields [-> [H1 H2]]].
    now exists fields.
  - intros [fields [Hin [H1 H2]]]. exists (JObj fields).
    destruct (proj2 (well_formed_iff (JObj fields) t)) as [Hwf Ht].
    { now exists fields. }
    split; [exact Ht|]. apply filter_In. now split.
Qed.

Lemma category_types_distinct (doc : list json) :
  NoDup (filter primitive (category_types doc)).
Proof.
  unfold category_types.
  apply (Permutation_NoDup (l := filter primitive
           (Set_from (map type_of (filter well_formed doc))))).
  - apply filter_perm. symmetry. apply sort_perm.
  - apply NoDup_Set_from.
Qed.


(** When every category of a document is a string, the button labels are
    pairwise different. *)
Lemma string_labels_distinct (doc : list json) :
  (forall t, In t (category_types doc) -> exists s, t = JStr s) ->
  NoDup (map ToString (category_types doc)).
Proof.
  intros Hstr. pose proof (category_types_distinct doc) as Hnd.
  revert Hstr Hnd. generalize (category_types doc) as types.
  induction types as [|t types IH]; intros Hstr Hnd; simpl; [constructor|].
  destruct (Hstr t (or_introl eq_refl)) as [s ->]. simpl in *.
  inversion Hnd as [|? ? Hnotin Hnd']; subst. constructor.
  - intros Hin. apply Hnotin. apply in_map_iff in Hin.
    destruct Hin as [u [Hu Hin]].
    destruct (Hstr u (or_intror Hin)) as [s' ->]. simpl in Hu. subst s'.
    apply filter_In. now split.
  - apply IH; [|exact Hnd']. intros u Hu. apply Hstr. now right.
Qed.

(** ** Rendering a category *)

Lemma append_empty_r (s : string) : s ++ "" = s.
Proof. induction s as [|c s IH]; simpl; [reflexivity | now rewrite IH]. Qed.

Lemma in_category_iff (typeName : string) (item : json) :
  is_object item && is_string (get "type" item) typeName = true <->
  exists fields,
    item = JObj fields /\ assoc "type" fields = Some (JStr typeName).
Proof.
  split.
  - intros H. apply andb_true_iff in H. destruct H as [Ho Ht].
    destruct item as [| | | |items|fields]; try discriminate.
    exists fields. split; [reflexivity|]. simpl in Ht.
    destruct (assoc "type" fields) as [[| | |t| |]|]; try discriminate.
    simpl in Ht. apply String.eqb_eq in Ht. now subst.
  - intros [fields [-> Ht]]. simpl. rewrite Ht. simpl.
    now rewrite String.eqb_refl.
Qed.

Lemma contentItems_empty (doc : list json) (c : string) :
  (forall fields, In (JObj fields) doc -> assoc "type" fields <> Some (JStr c)) ->
  contentItems doc c = [].
Proof.
  intros H. unfold contentItems.
  induction doc as [|item doc IH]; simpl; [reflexivity|].
  destruct (is_object item && is_string (get "type" item) c) eqn:E.
  - apply in_category_iff in E. destruct E as [fields [-> Ht]].
    exfalso. apply (H fields); [now left | exact Ht].
  - apply IH. intros fields Hin. apply H. now right.
Qed.

Section Rendering.

Variable marked_parse : string -> string.
Variable marked_parse_other : json -> completion string.
Variable engine_replace : string -> string -> string -> completion string.

Let display := displayContentByType marked_parse marked_parse_other engine_replace.
Let item_block := render_item marked_parse marked_parse_other engine_replace.
Let blocks := render_items marked_parse marked_parse_other engine_replace.
Let html_of := category_html marked_parse marked_parse_other engine_replace.

(** C9.  When no entry of the loaded document that is an object has the
    type [c], rendering [c] completes without an exception and shows the
    message that names [c]. *)
Theorem empty_category_rendering (v : viewer) (doc : list json) (c : string) :
  (forall fields, In (JObj fields) doc -> assoc "type" fields <> Some (JStr c)) ->
  display c (set_currentJsonData (JArr doc) v) =
  Done (set_contentOutput ("<p>No content found for type: " ++ c ++ "</p>")
          (set_currentJsonData (JArr doc) v)).
Proof.
  intros H. unfold display, displayContentByType. simpl.
  now rewrite (contentItems_empty doc c H).
Qed.

Lemma falsy_summary_no_match (item : json) (needle : string) :
  truthy (get "summary" item) = false ->
  summary_matches item needle = Returns false.
Proof.
  unfold summary_matches. intros H.
  destruct (get "summary" item) as [s|]; [now rewrite H | reflexivity].
Qed.





Lemma hasMatchingContent_all_falsy (items : list json) (needle : string) :
  (forall item, In item items -> truthy (get "summary" item) = false) ->
  hasMatchingContent items needle = Returns false.
Proof.
  induction items as [|x items IH]; intros H; simpl; [reflexivity|].
  rewrite (falsy_summary_no_match x needle (H x (or_introl eq_refl))).
  apply IH. intros item Hin. apply H. now right.
Qed.


(** The forEach body reads the two filters of the viewer and nothing else. *)
Lemma item_block_filters (v v' : viewer) (typeName : string) (item : json) :
  contentFilter v = contentFilter v' -> typeFilter v = typeFilter v' ->
  item_block v typeName item = item_block v' typeName item.
Proof.
  intros Hc Ht. unfold item_block, render_item. now rewrite Hc, Ht.
Qed.

Lemma blocks_filters (v v' : viewer) (typeName : string) (items : list json)
    (html : string) :
  contentFilter v = contentFilter v' -> typeFilter v = typeFilter v' ->
  blocks v typeName items html = blocks v' typeName items html.
Proof.
  intros Hc Ht. unfold blocks. revert html.
  induction items as [|x items IH]; intros html; cbn [render_items];
    [reflexivity|].
  pose proof (item_block_filters v v' typeName x Hc Ht) as E.
  unfold item_block in E. rewrite E.
  destruct (render_item _ _ _ v' typeName x); [apply IH | reflexivity].
Qed.

Lemma rendered_display (v : viewer) (doc : list json) (typeName : string) :
  rendered (display typeName (set_currentJsonData (JArr doc) v)) =
  match contentItems doc typeName with
  | [] => Returns ("<p>No content found for type: " ++ typeName ++ "</p>")
  | items => html_of v typeName items
  end.
Proof.
  unfold display, displayContentByType, html_of, category_html.
  cbn [set_currentJsonData currentJsonData truthy negb].
  destruct (contentItems doc typeName) as [|x items]; [reflexivity|].
  change (contentFilter (set_currentJsonData (JArr doc) v))
    with (contentFilter v).
  destruct (hasMatchingContent (x :: items) (contentFilter v)) as [m|e];
    [|reflexivity].
  rewrite <- (blocks_filters (set_currentJsonData (JArr doc) v) v)
    by reflexivity.
  unfold blocks.
  match goal with
  | |- rendered match ?a with _ => _ end = ?b =>
      change b with a; destruct a; reflexivity
  end.
Qed.


End Rendering.

(** ** Discovery *)

Lemma probes_candidates net v n files : map fst (probes net v n files) = files.
Proof.
  revert n. induction files as [|f files IH]; intros n; simpl;
    [reflexivity | now rewrite IH].
Qed.

Lemma probes_directory net v v' n files :
  dataDirectory v = dataDirectory v' ->
  probes net v n files = probes net v' n files.
Proof.
  intros H. revert n. induction files as [|f files IH]; intros n; simpl;
    [reflexivity|].
  rewrite IH. unfold loadJsonFile. now rewrite H.
Qed.

Lemma load_each_probes net v n files loadedFiles filteredFiles :
  load_each net v n files loadedFiles filteredFiles =
  ((loadedFiles ++ loaded_files (probes net v n files))%list,
   (filteredFiles ++ matched_files v (probes net v n files))%list).
Proof.
  unfold loaded_files, matched_files.
  revert n loadedFiles filteredFiles.
  induction files as [|f files IH]; intros n L F; simpl.
  - now rewrite !app_nil_r.
  - unfold loaded, matched at 1. simpl.
    destruct (loadJsonFile (net n) v f) as [data|e]; rewrite IH.
    + destruct (fileContainsFilteredContent v data); simpl;
        now rewrite <- !app_assoc.
    + reflexivity.
Qed.

Lemma matched_are_loaded v ps : matched_files v ps <> [] -> loaded_files ps <> [].
Proof.
  unfold matched_files, loaded_files.
  induction ps as [|[f r] ps IH]; simpl; [congruence|].
  unfold matched, loaded at 1. simpl. destruct r as [data|e]; simpl.
  - discriminate.
  - exact IH.
Qed.

Section Selection.

Variable marked_parse : string -> string.
Variable marked_parse_other : json -> completion string.
Variable engine_replace : string -> string -> string -> completion string.
Variable SAMPLE_DATA : list (string * json).

Let display := displayContentByType marked_parse marked_parse_other engine_replace.
Let display_of :=
  displayContentByType_of marked_parse marked_parse_other engine_replace.
Let displaySelected :=
  displaySelectedContent marked_parse marked_parse_other engine_replace.
Let handleSelection :=
  handleFileSelection marked_parse marked_parse_other engine_replace SAMPLE_DATA.
Let change :=
  on_change marked_parse marked_parse_other engine_replace SAMPLE_DATA.
Let tryLoading :=
  tryLoadingFiles marked_parse marked_parse_other engine_replace SAMPLE_DATA.
Let useSample :=
  useSampleData marked_parse marked_parse_other engine_replace SAMPLE_DATA.
Let initialise :=
  init marked_parse marked_parse_other engine_replace SAMPLE_DATA.

Ltac split_matches :=
  repeat match goal with
         | |- context [match ?x with _ => _ end] => destruct x
         end.

Lemma display_keeps (typeName : string) (v : viewer) :
  files_and_status (state_of (display typeName v)) = files_and_status v.
Proof.
  unfold display, displayContentByType. split_matches; reflexivity.
Qed.

Lemma display_of_keeps (typeName : json) (v : viewer) :
  files_and_status (state_of (display_of typeName v)) = files_and_status v.
Proof.
  unfold display_of, displayContentByType_of.
  destruct typeName; try reflexivity. apply display_keeps.
Qed.

Lemma and_then_keeps (o : outcome) (k : viewer -> viewer) :
  (forall v, files_and_status (k v) = files_and_status v) ->
  files_and_status (state_of (and_then o k)) = files_and_status (state_of o).
Proof. intros H. destruct o; simpl; [apply H | reflexivity]. Qed.

Lemma displaySelected_keeps (v : viewer) :
  files_and_status (state_of (displaySelected v)) = files_and_status v.
Proof.
  unfold displaySelected, displaySelectedContent.
  destruct (negb (truthy (Some (currentJsonData v)))); [reflexivity|].
  destruct (currentJsonData v) as [| | | |doc|]; try reflexivity.
  destruct (matchingItems v doc) as [[|m ms]|e]; [| |reflexivity].
  - destruct doc as [|firstItem doc]; [reflexivity|].
    destruct (well_formed firstItem); [|reflexivity].
    rewrite and_then_keeps by reflexivity. apply display_of_keeps.
  - rewrite and_then_keeps by reflexivity. apply display_keeps.
Qed.

Lemma updateTypeButtons_keeps (v : viewer) :
  files_and_status (state_of (updateTypeButtons v)) = files_and_status v.
Proof. unfold updateTypeButtons. split_matches; reflexivity. Qed.

Lemma bind_keeps (o : outcome) (k : viewer -> outcome) :
  (forall v, files_and_status (state_of (k v)) = files_and_status v) ->
  files_and_status (state_of (bind o k)) = files_and_status (state_of o).
Proof. intros H. destruct o; simpl; [apply H | reflexivity]. Qed.

Lemma handleSelection_keeps_options fetch fileName (v : viewer) :
  fileSelect_options (handleSelection fetch fileName v) = fileSelect_options v.
Proof.
  unfold handleSelection, handleFileSelection.
  set (l := if truthy (lookup fileName SAMPLE_DATA) then _ else _).
  destruct l as [data|e]; [|reflexivity].
  set (o := bind _ _).
  assert (files_and_status (state_of o) = files_and_status v) as H.
  { unfold o. rewrite bind_keeps by apply displaySelected_keeps.
    now rewrite updateTypeButtons_keeps. }
  apply (f_equal fst) in H. simpl in H. destruct o; exact H.
Qed.

Lemma tryLoading_outcome (net : nat -> string -> fetch_outcome) (v : viewer) :
  let ps := probes net v 0 (availableFiles v) in
  match matched_files v ps, loaded_files ps with
  | _ :: _, _ =>
      exists v', tryLoading net v = Done v' /\
                 fileSelect_options v' = matched_files v ps
  | [], _ :: _ =>
      exists v', tryLoading net v = Done v' /\
                 fileSelect_options v' = loaded_files ps
  | [], [] =>
      exists v', tryLoading net v = Failed (Error "No files could be loaded") v'
  end.
Proof.
  intros ps. unfold tryLoading, tryLoadingFiles.
  set (v1 := showStatusMessage _ _ _).
  rewrite load_each_probes. cbn [app].
  change (availableFiles v1) with (availableFiles v).
  rewrite (probes_directory net v1 v) by reflexivity. fold ps.
  change (matched_files v1 ps) with (matched_files v ps).
  pose proof (matched_are_loaded v ps) as Hsub.
  destruct (matched_files v ps) as [|m ms] eqn:Em;
    destruct (loaded_files ps) as [|l ls] eqn:El.
  - eexists. reflexivity.
  - eexists. split; [reflexivity|]. cbn [displayFiles].
    cbn [fileSelect_options hideLoading showStatusMessage set_loadingIndicator
         set_statusMessage].
    fold handleSelection. now rewrite handleSelection_keeps_options.
  - exfalso. apply Hsub; [discriminate | reflexivity].
  - eexists. split; [reflexivity|]. cbn [displayFiles].
    cbn [fileSelect_options hideLoading showStatusMessage set_loadingIndicator
         set_statusMessage].
    fold handleSelection. now rewrite handleSelection_keeps_options.
Qed.




(** A file that loads but holds no array is not covered by the above: the
    load succeeds, the new value is stored and the buttons are cleared
    before [.filter] fails, and the error is shown over the stale content. *)
Lemma selection_of_non_array (fetch : string -> fetch_outcome)
    (fileName : string) (fields : list (string * json)) (v : viewer) :
  truthy (lookup fileName SAMPLE_DATA) = false ->
  loadJsonFile fetch v fileName = Returns (JObj fields) ->
  handleSelection fetch fileName v =
  showStatusMessage (WithMessage "Error: " EngineError) "error"
    (set_typeButtons (Buttons []) (set_currentJsonData (JObj fields) v)).
Proof.
  intros Hsample Hload. unfold handleSelection, handleFileSelection.
  now rewrite Hsample, Hload.
Qed.

(** Nor is a name that the built-in data set does not hold but every object
    inherits, such as constructor: the inherited member is taken for
    built-in data, no request is made, the member is stored and the buttons
    are cleared before [.filter] fails. *)
Lemma selection_of_inherited_name (fetch : string -> fetch_outcome)
    (fileName : string) (v : viewer) :
  assoc fileName SAMPLE_DATA = None ->
  In fileName Object_prototype ->
  handleSelection fetch fileName v =
  showStatusMessage (WithMessage "Error: " EngineError) "error"
    (set_typeButtons (Buttons []) (set_currentJsonData inherited_member v)).
Proof.
  intros Hown Hin. unfold handleSelection, handleFileSelection, lookup.
  rewrite Hown.
  assert (existsb (String.eqb fileName) Object_prototype = true) as ->.
  { apply existsb_exists. exists fileName. split; [exact Hin|].
    apply String.eqb_refl. }
  reflexivity.
Qed.

(** Outside those names a read of [SAMPLE_DATA] sees the own properties
    only. *)
Lemma lookup_own (fileName : string) :
  ~ In fileName Object_prototype ->
  lookup fileName SAMPLE_DATA = assoc fileName SAMPLE_DATA.
Proof.
  intros Hout. unfold lookup.
  destruct (assoc fileName SAMPLE_DATA); [reflexivity|].
  destruct (existsb (String.eqb fileName) Object_prototype) eqn:E;
    [|reflexivity].
  apply existsb_exists in E. destruct E as [k [Hin Hk]].
  apply String.eqb_eq in Hk. subst k. contradiction.
Qed.

End Selection.

(** ** Title derivation *)

Lemma is_word_replaced (c : ascii) :
  is_word (if underscore c then " "%char else c) = alnum c.
Proof.
  unfold alnum. destruct (underscore c) eqn:E; simpl.
  - now rewrite andb_false_r.
  - now rewrite andb_true_r.
Qed.

Lemma replace_underscores_length (s : string) :
  String.length (replace_underscores s) = String.length s.
Proof. induction s; simpl; congruence. Qed.

Lemma capitalize_from_length (prev : bool) (s : string) :
  String.length (capitalize_from prev s) = String.length s.
Proof. revert prev. induction s; intros prev; simpl; congruence. Qed.

Lemma capitalize_from_get (s : string) :
  forall (prev : bool) (i : nat) (c : ascii),
    String.get i s = Some c ->
    String.get i (capitalize_from prev (replace_underscores s)) =
    Some (if underscore c then " "%char
          else if alnum c &&
                  match i with
                  | O => negb prev
                  | S _ => opens_word s i
                  end
               then toUpperCase c else c).
Proof.
  induction s as [|a s IH]; intros prev i c H; [discriminate|].
  destruct i as [|j]; cbn [String.get] in H.
  - injection H as ->. cbn [replace_underscores capitalize_from String.get].
    fold (underscore c). rewrite is_word_replaced.
    destruct (underscore c) eqn:E; [|reflexivity].
    unfold alnum. rewrite E. now rewrite andb_false_r.
  - cbn [replace_underscores capitalize_from String.get].
    fold (underscore a). rewrite (IH _ j c H), is_word_replaced.
    destruct j as [|k]; reflexivity.
Qed.

(** C7.  In src/script.js the title of a category label has the length of
    the label; every underscore has become a space, every letter that opens
    a word (a run of letters and digits) is a capital, and every other
    character is kept.  The label tech_choices gives the title Tech Choices.
    The manifest variant departs from this at the same label: it replaces
    the first underscore only and capitalises the first letter only, and
    the category tech_choices is rendered under the header Tech choices. *)
Theorem title_derivation :
  (forall s, String.length (title s) = String.length s) /\
  (forall s i c,
      String.get i s = Some c ->
      String.get i (title s) = Some (title_char s i c)) /\
  title "tech_choices" = "Tech Choices" /\
  Manifest.title "tech_choices" = "Tech choices" /\
  (let v := set_currentJsonData (JArr [entry "tech_choices" "Jest"])
              (set_value "repo_learnings.json" default_viewer) in
   rendered (displayContentByType paragraph no_converter no_engine
               "tech_choices" v) =
   Returns "<h2>repo - Tech Choices</h2><div><p>Jest</p></div>" /\
   rendered (Manifest.displayContentByType paragraph no_converter no_engine
               "tech_choices" v) =
   Returns "<h2>repo - Tech choices</h2><div><p>Jest</p></div>").
Proof.
  split; [|split; [|repeat split]].
  - intros s. unfold title.
    now rewrite capitalize_from_length, replace_underscores_length.
  - intros s i c H. unfold title, title_char.
    rewrite (capitalize_from_get s false i c H).
    destruct i; reflexivity.
Qed.

(** The manifest variant replaces the first underscore only and
    capitalises the first letter only. *)
Lemma manifest_title_tech_choices :
  Manifest.title "tech_choices" = "Tech choices" /\
  Manifest.title "open_source_licenses" = "Open source_licenses".
Proof. split; reflexivity. Qed.

(** ** Highlighting *)

Section Highlighting.

Variable marked_parse : string -> string.
Variable marked_parse_other : json -> completion string.
Variable engine_replace : string -> string -> string -> completion string.

Let display := displayContentByType marked_parse marked_parse_other engine_replace.
Let item_block := render_item marked_parse marked_parse_other engine_replace.

(** X17.  In a category that is not the filter's, a summary reaches the
    converter as it is, whether or not it contains the filter text. *)
Lemma no_highlight_elsewhere (v : viewer) (typeName s : string)
    (fields : list (string * json)) :
  typeName <> typeFilter v ->
  assoc "summary" fields = Some (JStr s) -> s <> "" ->
  item_block v typeName (JObj fields) =
  Returns ("<div>" ++ marked_parse s ++ "</div>").
Proof.
  intros Ht Hs Hne. unfold item_block, render_item. simpl. rewrite Hs.
  apply String.eqb_neq in Ht, Hne. simpl. rewrite Ht, Hne.
  now rewrite andb_false_r.
Qed.

(** C3, at the inputs where the code departs from it.  The filter text is
    compiled as a pattern.  With the filter C++ the pattern is invalid:
    rendering the filtered category of a document whose summary contains
    C++ ends in an exception and nothing is rendered.  With the filter N+1
    the pattern does not match the text N+1: the summary that contains it
    is rendered with no highlight marker. *)
Theorem highlight_reads_filter_as_pattern :
  (let v := set_currentJsonData
              (JArr [entry "tech_choices" "Written in C++ and Python"])
              (new_viewer "./data" "C++" "tech_choices") in
   includes "Written in C++ and Python" (contentFilter v) = true /\
   display "tech_choices" v = Failed EngineError v) /\
  (let v := set_currentJsonData
              (JArr [entry "tech_choices" "Avoids N+1 queries"])
              (new_viewer "./data" "N+1" "tech_choices") in
   includes "Avoids N+1 queries" (contentFilter v) = true /\
   rendered (display "tech_choices" v) =
   Returns ("<h2> - Tech Choices</h2>" ++
            "<p><em>This section contains 'N+1'</em></p>" ++
            "<div>" ++ marked_parse "Avoids N+1 queries" ++ "</div>")).
Proof.
  split; split; reflexivity.
Qed.

End Highlighting.

(** ** The category shown after a selection *)

Section ActiveCategory.

Variable marked_parse : string -> string.
Variable marked_parse_other : json -> completion string.
Variable engine_replace : string -> string -> string -> completion string.

Let display := displayContentByType marked_parse marked_parse_other engine_replace.
Let displaySelected :=
  displaySelectedContent marked_parse marked_parse_other engine_replace.

(** (a) Some entry of the filtered category matches: that category is
    rendered. *)
Lemma selected_filtered_category (v : viewer) (doc : list json)
    (m : json) (ms : list json) :
  currentJsonData v = JArr doc ->
  matchingItems v doc = Returns (m :: ms) ->
  rendered (displaySelected v) = rendered (display (typeFilter v) v).
Proof.
  intros Hdoc Hm. unfold displaySelected, displaySelectedContent.
  rewrite Hdoc, Hm. simpl. fold display.
  destruct (display (typeFilter v) v); reflexivity.
Qed.

(** (b) No entry matches and the first entry is well formed with a string
    type: the category of the first entry is rendered. *)
Lemma selected_first_category (v : viewer) (first : json) (rest : list json)
    (t : string) :
  currentJsonData v = JArr (first :: rest) ->
  matchingItems v (first :: rest) = Returns [] ->
  well_formed first = true -> type_of first = JStr t ->
  rendered (displaySelected v) = rendered (display t v).
Proof.
  intros Hdoc Hm Hwf Ht. unfold displaySelected, displaySelectedContent.
  rewrite Hdoc, Hm, Hwf, Ht. simpl. fold display.
  destruct (display t v); reflexivity.
Qed.

(** (c) An empty document: the message for an empty file. *)
Lemma selected_empty_document (v : viewer) :
  currentJsonData v = JArr [] ->
  displaySelected v =
  Done (set_contentOutput "<p>No content found in the selected file</p>" v).
Proof.
  intros Hdoc. unfold displaySelected, displaySelectedContent.
  now rewrite Hdoc.
Qed.

(** No entry matches and the first entry is not well formed: nothing is
    rendered, whatever the rest of the document holds. *)
Lemma selected_first_ill_formed (v : viewer) (first : json) (rest : list json) :
  currentJsonData v = JArr (first :: rest) ->
  matchingItems v (first :: rest) = Returns [] ->
  well_formed first = false ->
  displaySelected v = Done v.
Proof.
  intros Hdoc Hm Hwf. unfold displaySelected, displaySelectedContent.
  now rewrite Hdoc, Hm, Hwf.
Qed.

(** C4, at the input where the code departs from it.  The first record of
    the document has no [type]; its second record is a well-formed entry of
    the category architecture, the only derived category.  After the
    selection nothing has been rendered: the content region still shows
    what it showed before, not the category architecture. *)
Theorem first_record_decides_category :
  let doc := [JObj [("summary", JStr "Overview")];
              entry "architecture" "Layered"] in
  let v := set_contentOutput "<p>earlier content</p>"
             (set_currentJsonData (JArr doc) default_viewer) in
  category_types doc = [JStr "architecture"] /\
  displaySelected v = Done v /\
  contentOutput (state_of (displaySelected v)) = "<p>earlier content</p>" /\
  rendered (display "architecture" v) =
  Returns ("<h2> - Architecture</h2>" ++
           "<div>" ++ marked_parse "Layered" ++ "</div>").
Proof.
  repeat split.
Qed.

End ActiveCategory.

(** ** Filters that are plain text

    A filter without pattern syntax compiles to the pattern that matches
    its own text, and then the highlighting does what the specification
    says: the summary is cut at occurrences of the filter, each of which is
    replaced by the marker, and no stretch left between two markers contains
    the filter. *)

Lemma plain_no_beyond (s : string) :
  plain s = true -> RegExp.any_char RegExp.beyond_char s = false.
Proof.
  induction s as [|c s IH]; simpl; [reflexivity|]. intros H.
  apply andb_true_iff in H. destruct H as [Hc Hs]. rewrite (IH Hs).
  unfold ordinary in Hc. apply andb_true_iff in Hc. destruct Hc as [Hc _].
  apply andb_true_iff in Hc. destruct Hc as [Hc _].
  apply negb_true_iff in Hc. now rewrite Hc.
Qed.

Lemma ordinary_atom (c : ascii) :
  ordinary c = true ->
  RegExp.quant_of c = None /\ RegExp.atom_of c = RegExp.Lit c.
Proof.
  unfold ordinary, RegExp.atom_of. intros H.
  apply andb_true_iff in H. destruct H as [H Hdot].
  apply andb_true_iff in H. destruct H as [_ Hq].
  apply negb_true_iff in Hdot. rewrite Hdot.
  destruct (RegExp.quant_of c); [discriminate | now split].
Qed.

Lemma terms_plain (s : string) :
  plain s = true -> RegExp.terms s = RegExp.Compiled (literal s).
Proof.
  induction s as [|c s IH]; [reflexivity|]. intros H.
  cbn [plain] in H. apply andb_true_iff in H. destruct H as [Hc Hs].
  destruct (ordinary_atom c Hc) as [Hq Ha].
  cbn [RegExp.terms literal]. rewrite Hq, Ha.
  destruct s as [|q s]; [reflexivity|].
  pose proof Hs as Hs'. cbn [plain] in Hs'.
  apply andb_true_iff in Hs'. destruct Hs' as [Hq' _].
  destruct (ordinary_atom q Hq') as [Hqq _]. rewrite Hqq.
  now rewrite (IH Hs).
Qed.

Lemma compile_plain (s : string) :
  plain s = true -> RegExp.compile s = RegExp.Compiled (literal s).
Proof.
  intros H. unfold RegExp.compile.
  now rewrite (plain_no_beyond s H), (terms_plain s H).
Qed.

Lemma match_here_literal (needle s : string) :
  RegExp.match_here (literal needle) s =
  if prefix needle s then Some (String.length needle) else None.
Proof.
  revert s. induction needle as [|a needle IH]; intros s.
  - now destruct s.
  - cbn [literal RegExp.match_here]. destruct s as [|b s]; [reflexivity|].
    cbn [RegExp.atom_matches prefix String.length].
    destruct (ascii_dec a b) as [->|Hab].
    + rewrite Ascii.eqb_refl, IH. now destruct (prefix needle s).
    + apply Ascii.eqb_neq in Hab. now rewrite Hab.
Qed.

Lemma prefix_app (p a b : string) :
  prefix p a = true -> prefix p (a ++ b) = true.
Proof.
  rewrite !prefix_iff. intros [rest ->]. exists (rest ++ b).
  clear. induction p as [|c p IH]; simpl; [reflexivity | now rewrite IH].
Qed.

Lemma wrapped_cons (needle marker : string) (c : ascii) (s out : string) :
  prefix needle (String c s) = false ->
  wrapped needle marker s out ->
  wrapped needle marker (String c s) (String c out).
Proof.
  intros Hp H. destruct H as [gap Hgap | gap rest out Hgap Hrest].
  - apply wrapped_tail. cbn [includes]. now rewrite Hp, Hgap.
  - apply (wrapped_hit needle marker (String c gap) rest out); [|exact Hrest].
    cbn [includes]. rewrite Hgap, orb_false_r.
    destruct (prefix needle (String c gap)) eqn:E; [|reflexivity].
    apply (prefix_app _ _ (needle ++ rest)) in E. simpl in E, Hp. congruence.
Qed.

Lemma replace_from_skip (p : RegExp.pattern) (by_ dropped rest : string) :
  RegExp.replace_from p by_ (dropped ++ rest) (String.length dropped) =
  RegExp.replace_from p by_ rest 0.
Proof.
  induction dropped as [|c dropped IH]; [reflexivity|]. exact IH.
Qed.

Lemma replace_all_wrapped (needle marker s : string) :
  needle <> "" ->
  wrapped needle marker s (RegExp.replace_all (literal needle) marker s).
Proof.
  intros Hne. unfold RegExp.replace_all.
  assert (forall n s, String.length s <= n ->
            wrapped needle marker s
              (RegExp.replace_from (literal needle) marker s 0)) as G.
  { induction n as [|n IH]; intros t Hlen.
    - destruct t; [|simpl in Hlen; lia]. cbn [RegExp.replace_from].
      rewrite match_here_literal. destruct needle; [congruence|].
      apply wrapped_tail. reflexivity.
    - destruct t as [|c t].
      + cbn [RegExp.replace_from]. rewrite match_here_literal.
        destruct needle; [congruence|]. apply wrapped_tail. reflexivity.
      + cbn [RegExp.replace_from]. rewrite match_here_literal.
        destruct (prefix needle (String c t)) eqn:E.
        * destruct needle as [|a needle]; [congruence|].
          cbn [String.length].
          apply prefix_iff in E. destruct E as [rest E].
          simpl in E. injection E as -> ->.
          rewrite replace_from_skip.
          apply (wrapped_hit (String a needle) marker "" rest).
          -- reflexivity.
          -- apply IH. simpl in Hlen.
             assert (String.length (needle ++ rest) =
                     String.length needle + String.length rest) as L.
             { clear. induction needle; simpl; congruence. }
             lia.
        * apply wrapped_cons; [exact E|]. apply IH. simpl in Hlen. lia. }
  now apply (G (String.length s)).
Qed.

Section PlainFilter.

Variable marked_parse : string -> string.
Variable marked_parse_other : json -> completion string.
Variable engine_replace : string -> string -> string -> completion string.

(** X16.  In the filtered category a summary that contains a plain filter
    reaches the converter with its occurrences wrapped. *)
Lemma highlight_plain_filter (v : viewer) (s : string)
    (fields : list (string * json)) :
  plain (contentFilter v) = true -> contentFilter v <> "" ->
  assoc "summary" fields = Some (JStr s) ->
  includes s (contentFilter v) = true ->
  exists out,
    wrapped (contentFilter v) (highlight_marker (contentFilter v)) s out /\
    render_item marked_parse marked_parse_other engine_replace v
      (typeFilter v) (JObj fields) =
    Returns ("<div>" ++ marked_parse out ++ "</div>").
Proof.
  intros Hplain Hne Hs Hinc.
  exists (RegExp.replace_all (literal (contentFilter v))
            (highlight_marker (contentFilter v)) s).
  split; [now apply replace_all_wrapped|].
  unfold render_item, highlight. simpl. rewrite Hs.
  assert (s <> "") as Hs0.
  { intros ->. destruct (contentFilter v); [congruence | discriminate]. }
  apply String.eqb_neq in Hs0, Hne. simpl. rewrite Hs0, Hne, Hinc.
  rewrite String.eqb_refl. simpl. now rewrite (compile_plain _ Hplain).
Qed.

End PlainFilter.

(** ** The manifest variant: where it differs

    The variant turns a failed load into a document of one entry of type
    error.  A failed selection therefore replaces the current document, a
    candidate that failed to load stays in the list of files, and there is
    no built-in data set to fall back to. *)

Section ManifestVariant.

Variable marked_parse : string -> string.
Variable marked_parse_other : json -> completion string.
Variable engine_replace : string -> string -> string -> completion string.
Variable message : exn -> string.

Lemma manifest_display_keeps_document (typeName : string) (v : viewer) :
  currentJsonData
    (state_of (Manifest.displayContentByType marked_parse marked_parse_other
                 engine_replace typeName v)) = currentJsonData v.
Proof.
  unfold Manifest.displayContentByType.
  destruct (negb (truthy (Some (currentJsonData v)))); [reflexivity|].
  destruct (currentJsonData v) as [| | | |doc|] eqn:E; try (simpl; congruence).
  repeat match goal with
         | |- context [match ?x with _ => _ end] => destruct x
         end; simpl; congruence.
Qed.

Lemma manifest_selected_keeps_document (v : viewer) :
  currentJsonData
    (state_of (Manifest.displaySelectedContent marked_parse marked_parse_other
                 engine_replace v)) = currentJsonData v.
Proof.
  unfold Manifest.displaySelectedContent.
  destruct (negb (truthy (Some (currentJsonData v)))); [reflexivity|].
  destruct (currentJsonData v) as [| | | |doc|] eqn:E; try (simpl; congruence).
  destruct (matchingItems v doc) as [[|m ms]|e]; [| |simpl; congruence].
  - destruct doc as [|firstItem doc]; [simpl; congruence|].
    destruct (well_formed firstItem); [|simpl; congruence].
    unfold Manifest.displayContentByType_of.
    destruct (type_of firstItem) as [| | |t| |]; try (simpl; congruence).
    pose proof (manifest_display_keeps_document t v) as H.
    destruct (Manifest.displayContentByType _ _ _ t v); simpl in *; congruence.
  - pose proof (manifest_display_keeps_document (typeFilter v) v) as H.
    destruct (Manifest.displayContentByType _ _ _ (typeFilter v) v);
      simpl in *; congruence.
Qed.

(** A selection whose load fails leaves the error document as the current
    document. *)
Lemma manifest_failed_selection_replaces_document (fileName : string)
    (v : viewer) :
  currentJsonData
    (state_of (Manifest.on_change marked_parse marked_parse_other
                 engine_replace message (fun _ => Rejected) fileName v)) =
  Manifest.error_document message FetchError.
Proof.
  unfold Manifest.on_change, Manifest.handleFileSelection, Manifest.loadJsonFile.
  set (u := set_currentJsonData _ _).
  assert (currentJsonData (state_of (Manifest.updateTypeButtons u)) =
          currentJsonData u) as H1.
  { reflexivity. }
  destruct (Manifest.updateTypeButtons u) as [u'|e u']; simpl in *.
  - now rewrite manifest_selected_keeps_document, H1.
  - exact H1.
Qed.

End ManifestVariant.

(** The examples of the specification, on src/script.js: of three
    candidates that load, the one that matches is listed alone; when none
    matches, all three are listed; when none loads, the files of the
    built-in data set are listed. *)
Lemma discovery_examples :
  let plain_doc := JArr [entry "architecture" "Layered"] in
  let hit_doc := JArr [entry "tech_choices" "Testing Frameworks: Jest"] in
  let sample := [("sample_learnings.json", hit_doc)] in
  let options net :=
    fileSelect_options
      (state_of (init paragraph no_converter no_engine sample net
                   three_candidates)) in
  options (serve [("./data/a_learnings.json", plain_doc);
                  ("./data/b_learnings.json", hit_doc);
                  ("./data/c_learnings.json", plain_doc)]) =
  ["b_learnings.json"] /\
  options (serve [("./data/a_learnings.json", plain_doc);
                  ("./data/b_learnings.json", plain_doc);
                  ("./data/c_learnings.json", plain_doc)]) =
  ["a_learnings.json"; "b_learnings.json"; "c_learnings.json"] /\
  options (serve []) = ["sample_learnings.json"].
Proof. repeat split. Qed.

(** ** The theorems at explicit inputs *)

Lemma empty_category_rendering_witness :
  let doc := [entry "tech_choices" "Testing Frameworks: Jest"] in
  (forall fields,
      In (JObj fields) doc -> assoc "type" fields <> Some (JStr "setup")) /\
  displayContentByType paragraph no_converter no_engine "setup"
    (set_currentJsonData (JArr doc) default_viewer) =
  Done (set_contentOutput "<p>No content found for type: setup</p>"
          (set_currentJsonData (JArr doc) default_viewer)).
Proof.
  intros doc.
  assert (forall fields,
             In (JObj fields) doc ->
             assoc "type" fields <> Some (JStr "setup")) as H.
  { intros fields [E | []]. injection E as <-. simpl. discriminate. }
  split; [exact H|].
  exact (empty_category_rendering paragraph no_converter no_engine
           default_viewer doc "setup" H).
Defined.


(** ** What a rendering and a selection write *)

Section Frame.

Variable marked_parse : string -> string.
Variable marked_parse_other : json -> completion string.
Variable engine_replace : string -> string -> string -> completion string.
Variable SAMPLE_DATA : list (string * json).

Let display := displayContentByType marked_parse marked_parse_other engine_replace.
Let display_of :=
  displayContentByType_of marked_parse marked_parse_other engine_replace.
Let displaySelected :=
  displaySelectedContent marked_parse marked_parse_other engine_replace.
Let handleSelection :=
  handleFileSelection marked_parse marked_parse_other engine_replace SAMPLE_DATA.

(** A rendering either fails in the state it found or writes the content
    region and nothing else. *)
Lemma display_shape (typeName : string) (v : viewer) :
  display typeName v =
  match rendered (display typeName v) with
  | Returns html => Done (set_contentOutput html v)
  | Throws e => Failed e v
  end.
Proof.
  unfold display, displayContentByType.
  destruct (negb (truthy (Some (currentJsonData v)))); [reflexivity|].
  destruct (currentJsonData v) as [| | | |doc|]; try reflexivity.
  destruct (contentItems doc typeName) as [|x items]; [reflexivity|].
  destruct (hasMatchingContent (x :: items) (contentFilter v)) as [m|e];
    [|reflexivity].
  match goal with
  | |- match ?a with _ => _ end = _ => destruct a; reflexivity
  end.
Qed.

Lemma display_of_shape (typeName : json) (v : viewer) :
  display_of typeName v =
  match rendered (display_of typeName v) with
  | Returns html => Done (set_contentOutput html v)
  | Throws e => Failed e v
  end.
Proof.
  unfold display_of, displayContentByType_of.
  destruct typeName; try reflexivity. apply display_shape.
Qed.

(** What is rendered depends on the two filters, the selected file name and
    the current document, and on nothing else of the viewer. *)
Lemma display_inputs (typeName : string) (v v' : viewer) :
  contentFilter v = contentFilter v' -> typeFilter v = typeFilter v' ->
  fileSelect_value v = fileSelect_value v' ->
  currentJsonData v = currentJsonData v' ->
  rendered (display typeName v) = rendered (display typeName v').
Proof.
  intros Hc Ht Hv Hd. unfold display, displayContentByType.
  rewrite <- Hd.
  destruct (negb (truthy (Some (currentJsonData v)))); [reflexivity|].
  destruct (currentJsonData v) as [| | | |doc|]; try reflexivity.
  destruct (contentItems doc typeName) as [|x items]; [reflexivity|].
  rewrite <- Hc.
  destruct (hasMatchingContent (x :: items) (contentFilter v)) as [m|e];
    [|reflexivity].
  rewrite <- (blocks_filters marked_parse marked_parse_other engine_replace
                v v') by assumption.
  unfold header, filter_note. rewrite <- Hc, <- Ht, <- Hv.
  match goal with
  | |- rendered match ?a with _ => _ end = _ => destruct a; reflexivity
  end.
Qed.

Section Projection.

Variable A : Type.
Variable field : viewer -> A.
Hypothesis field_content : forall html v, field (set_contentOutput html v) = field v.
Hypothesis field_buttons : forall c v, field (set_typeButtons c v) = field v.

Lemma field_display (typeName : string) (v : viewer) :
  field (state_of (display typeName v)) = field v.
Proof.
  rewrite display_shape. destruct (rendered (display typeName v)); simpl;
    [apply field_content | reflexivity].
Qed.

Lemma field_display_of (typeName : json) (v : viewer) :
  field (state_of (display_of typeName v)) = field v.
Proof.
  rewrite display_of_shape. destruct (rendered (display_of typeName v)); simpl;
    [apply field_content | reflexivity].
Qed.

Lemma field_displaySelected (v : viewer) :
  field (state_of (displaySelected v)) = field v.
Proof.
  unfold displaySelected, displaySelectedContent.
  destruct (negb (truthy (Some (currentJsonData v))));
    [apply field_content|].
  destruct (currentJsonData v) as [| | | |doc|]; try reflexivity.
  destruct (matchingItems v doc) as [[|m ms]|e]; [| |reflexivity].
  - destruct doc as [|firstItem doc]; [apply field_content|].
    destruct (well_formed firstItem); [|reflexivity].
    pose proof (field_display_of (type_of firstItem) v) as H.
    fold display_of.
    destruct (display_of (type_of firstItem) v); simpl in *;
      [now rewrite field_buttons | exact H].
  - pose proof (field_display (typeFilter v) v) as H. fold display.
    destruct (display (typeFilter v) v); simpl in *;
      [now rewrite field_buttons | exact H].
Qed.

Lemma field_updateTypeButtons (v : viewer) :
  field (state_of (updateTypeButtons v)) = field v.
Proof.
  unfold updateTypeButtons.
  destruct (negb (truthy (Some (currentJsonData v)))); [reflexivity|].
  destruct (currentJsonData v) as [| | | |doc|]; simpl;
    try apply field_buttons.
  destruct (category_types doc); simpl; now rewrite !field_buttons.
Qed.

Lemma field_update_then_display (v : viewer) :
  field (state_of (bind (updateTypeButtons v) displaySelected)) = field v.
Proof.
  pose proof (field_updateTypeButtons v) as H.
  destruct (updateTypeButtons v) as [u|e u]; simpl in *; [|exact H].
  now rewrite field_displaySelected.
Qed.

Hypothesis field_document : forall d v, field (set_currentJsonData d v) = field v.
Hypothesis field_status : forall s v, field (set_statusMessage s v) = field v.

Lemma field_handleSelection fetch (fileName : string) (v : viewer) :
  field (handleSelection fetch fileName v) = field v.
Proof.
  unfold handleSelection, handleFileSelection.
  set (l := if truthy (lookup fileName SAMPLE_DATA) then _ else _).
  destruct l as [data|e]; simpl; [|apply field_status].
  pose proof (field_update_then_display (set_currentJsonData data v)) as H.
  rewrite field_document in H. fold displaySelected.
  destruct (bind _ _); simpl in *; [exact H|].
  unfold showStatusMessage. now rewrite field_status.
Qed.

End Projection.

(** X1.  Rendering a category writes the content region and nothing else,
    or fails without writing at all; and rendering the same category again
    changes nothing. *)
Theorem rendering_twice_is_rendering_once (typeName : string) (v : viewer) :
  ((exists html, display typeName v = Done (set_contentOutput html v)) \/
   (exists e, display typeName v = Failed e v)) /\
  (forall v', display typeName v = Done v' -> display typeName v' = Done v').
Proof.
  split.
  - rewrite display_shape. destruct (rendered (display typeName v)) as [h|e];
      [left; now exists h | right; now exists e].
  - intros v' H. rewrite display_shape in H.
    destruct (rendered (display typeName v)) as [h|e] eqn:E; [|discriminate].
    injection H as <-. rewrite display_shape.
    rewrite <- (display_inputs typeName v (set_contentOutput h v))
      by reflexivity.
    now rewrite E.
Qed.

Lemma activate_nth_labels (i : nat) (bs : list button) :
  map label (activate_nth i bs) = map label bs.
Proof.
  revert i. induction bs as [|b bs IH]; intros [|i]; simpl; try reflexivity.
  now rewrite IH.
Qed.

Lemma activate_nth_active (bs : list button) :
  forall i j,
    option_map active (nth_error (activate_nth i (map deactivate bs)) j) =
    option_map (fun _ => Nat.eqb j i) (nth_error bs j).
Proof.
  induction bs as [|b bs IH]; intros i j.
  - destruct i, j; reflexivity.
  - destruct i as [|i], j as [|j]; simpl; try reflexivity.
    + clear. revert j. induction bs as [|c bs IH]; intros [|j]; simpl;
        try reflexivity. apply IH.
    + apply IH.
Qed.

(** X2.  A click on the button at position [i] leaves that button, and no
    other, marked active; the labels of the buttons, the current document
    and the list of files are what they were. *)
Theorem click_marks_one_button (i : nat) (bs : list button) (v : viewer) :
  typeButtonsContainer v = Buttons bs -> i < List.length bs ->
  let v' := state_of (on_click marked_parse marked_parse_other engine_replace
                        i v) in
  exists bs',
    typeButtonsContainer v' = Buttons bs' /\
    map label bs' = map label bs /\
    (forall j, option_map active (nth_error bs' j) =
               option_map (fun _ => Nat.eqb j i) (nth_error bs j)) /\
    currentJsonData v' = currentJsonData v /\
    fileSelect_options v' = fileSelect_options v.
Proof.
  intros Hbs Hi v'. subst v'. unfold on_click. rewrite Hbs.
  destruct (nth_error bs i) as [b|] eqn:Eb;
    [|apply nth_error_None in Eb; lia].
  exists (activate_nth i (map deactivate bs)).
  assert (map label (activate_nth i (map deactivate bs)) = map label bs) as Hl.
  { rewrite activate_nth_labels, map_map. reflexivity. }
  destruct (negb (truthy (Some (currentJsonData v)))).
  - simpl. repeat split; try assumption. apply activate_nth_active.
  - fold display_of.
    set (v1 := set_typeButtons _ v).
    rewrite (field_display_of _ typeButtonsContainer) by reflexivity.
    rewrite (field_display_of _ currentJsonData) by reflexivity.
    rewrite (field_display_of _ fileSelect_options) by reflexivity.
    simpl. repeat split; try assumption. apply activate_nth_active.
Qed.

End Frame.

(** ** From the list of files to the rendered category *)

Lemma append_assoc_string (a b c : string) : (a ++ b) ++ c = a ++ b ++ c.
Proof. induction a as [|x a IH]; simpl; [reflexivity | now rewrite IH]. Qed.

Lemma summary_matches_plain (item : json) (needle : string) :
  plain_summary item = true ->
  summary_matches item needle =
  Returns (truthy (get "summary" item) &&
           match get "summary" item with
           | Some (JStr s) => includes s needle
           | _ => false
           end).
Proof.
  unfold plain_summary, summary_matches. intros H.
  destruct (get "summary" item) as [[| | |s| |]|]; simpl in *;
    try reflexivity; try discriminate.
  - destruct b; [discriminate | reflexivity].
  - destruct (z =? 0)%Z; [reflexivity | discriminate].
  - destruct (s =? ""); reflexivity.
Qed.

Lemma matchingItems_plain (v : viewer) (doc : list json) :
  plain_summaries doc = true ->
  matchingItems v doc =
  Returns (filter (filtered_item (typeFilter v) (contentFilter v)) doc).
Proof.
  unfold plain_summaries.
  induction doc as [|item doc IH]; intros H; [reflexivity|].
  cbn [forallb] in H. apply andb_true_iff in H. destruct H as [Hi Hd].
  assert ((if is_object item && is_string (get "type" item) (typeFilter v)
           then summary_matches item (contentFilter v)
           else Returns false) =
          Returns (filtered_item (typeFilter v) (contentFilter v) item)) as E.
  { unfold filtered_item.
    destruct (is_object item && is_string (get "type" item) (typeFilter v));
      [|reflexivity].
    rewrite (summary_matches_plain item _ Hi). reflexivity. }
  cbn [matchingItems filter]. rewrite (IH Hd), E. reflexivity.
Qed.

Lemma hasMatchingContent_found (items : list json) (item : json)
    (needle : string) :
  forallb plain_summary items = true ->
  In item items ->
  summary_matches item needle = Returns true ->
  hasMatchingContent items needle = Returns true.
Proof.
  induction items as [|x items IH]; intros Hp Hin Hm; [contradiction|].
  cbn [forallb] in Hp. apply andb_true_iff in Hp. destruct Hp as [Hx Hp].
  cbn [hasMatchingContent]. destruct Hin as [-> | Hin].
  - now rewrite Hm.
  - rewrite (summary_matches_plain x needle Hx).
    destruct (truthy (get "summary" x) && _); [reflexivity | now apply IH].
Qed.

Lemma forallb_filter_plain (p : json -> bool) (doc : list json) :
  forallb plain_summary doc = true ->
  forallb plain_summary (filter p doc) = true.
Proof.
  induction doc as [|x doc IH]; simpl; [reflexivity|]. intros H.
  apply andb_true_iff in H. destruct H as [Hx Hd].
  destruct (p x); simpl; [rewrite Hx|]; now apply IH.
Qed.

Section Opening.

Variable marked_parse : string -> string.
Variable marked_parse_other : json -> completion string.
Variable engine_replace : string -> string -> string -> completion string.

Let display := displayContentByType marked_parse marked_parse_other engine_replace.
Let displaySelected :=
  displaySelectedContent marked_parse marked_parse_other engine_replace.

Lemma render_items_extends (v : viewer) (typeName : string)
    (items : list json) :
  forall html out,
    render_items marked_parse marked_parse_other engine_replace v typeName
      items html = Returns out ->
    exists rest, out = html ++ rest.
Proof.
  induction items as [|x items IH]; intros html out H; cbn [render_items] in H.
  - injection H as <-. exists "". now rewrite append_empty_r.
  - destruct (render_item _ _ _ v typeName x) as [block|e]; [|discriminate].
    destruct (IH _ _ H) as [rest ->]. exists (block ++ rest).
    apply append_assoc_string.
Qed.

(** X3.  Every button that [updateTypeButtons] creates for a string type
    leads to a category with at least one entry: a click on it renders the
    entries of that category, never the message for an empty category. *)
Theorem every_button_has_content (v : viewer) (doc : list json) (s : string) :
  In (JStr s) (category_types doc) ->
  contentItems doc s <> [] /\
  rendered (display s (set_currentJsonData (JArr doc) v)) =
  category_html marked_parse marked_parse_other engine_replace v s
    (contentItems doc s).
Proof.
  intros Hin. apply In_category_types in Hin.
  destruct Hin as [fields [Hin [Ht _]]].
  assert (In (JObj fields) (contentItems doc s)) as Hc.
  { unfold contentItems. apply filter_In. split; [exact Hin|].
    apply in_category_iff. now exists fields. }
  assert (contentItems doc s <> []) as Hne.
  { intros E. now rewrite E in Hc. }
  split; [exact Hne|].
  unfold display. rewrite rendered_display.
  destruct (contentItems doc s); [congruence | reflexivity].
Qed.

(** X4.  On a document whose summaries are absent, falsy or strings, the
    entries that make [displaySelectedContent] choose the filter's category
    are the entries that make [fileContainsFilteredContent] accept the
    file.  So a file that discovery lists as matching opens on the filter's
    category and, when the rendering completes, the content starts with the
    header of that category followed by the note about the filter. *)
Theorem listed_match_opens_on_filter (v : viewer) (doc : list json) :
  plain_summaries doc = true ->
  fileContainsFilteredContent v (JArr doc) = true ->
  let u := set_currentJsonData (JArr doc) v in
  matchingItems u doc =
  Returns (filter (filtered_item (typeFilter v) (contentFilter v)) doc) /\
  rendered (displaySelected u) = rendered (display (typeFilter v) u) /\
  (forall out,
      rendered (displaySelected u) = Returns out ->
      exists rest,
        out = header v (typeFilter v) ++ filter_note v ++ rest).
Proof.
  intros Hp Hf u.
  pose proof (matchingItems_plain u doc Hp) as Hm.
  change (typeFilter u) with (typeFilter v) in Hm.
  change (contentFilter u) with (contentFilter v) in Hm.
  cbn [fileContainsFilteredContent] in Hf. apply existsb_exists in Hf.
  destruct Hf as [item [Hin Hitem]].
  assert (In item (filter (filtered_item (typeFilter v) (contentFilter v)) doc))
    as Hkept by (apply filter_In; now split).
  assert (rendered (displaySelected u) = rendered (display (typeFilter v) u))
    as Hsel.
  { unfold displaySelected, displaySelectedContent.
    cbn [u set_currentJsonData currentJsonData truthy negb].
    fold u. rewrite Hm.
    destruct (filter _ doc) as [|m ms]; [contradiction|].
    change (typeFilter u) with (typeFilter v). fold display.
    destruct (display (typeFilter v) u); reflexivity. }
  split; [exact Hm|]. split; [exact Hsel|].
  intros out Hout. rewrite Hsel in Hout. unfold display, u in Hout.
  rewrite rendered_display in Hout.
  assert (In item (contentItems doc (typeFilter v))) as Hc.
  { unfold contentItems. apply filter_In. split; [exact Hin|].
    unfold filtered_item in Hitem.
    apply andb_true_iff in Hitem. destruct Hitem as [Hitem _].
    apply andb_true_iff in Hitem. destruct Hitem as [Hitem _]. exact Hitem. }
  assert (summary_matches item (contentFilter v) = Returns true) as Hs.
  { unfold plain_summaries in Hp.
    rewrite (summary_matches_plain item _
               (proj1 (forallb_forall _ _) Hp item Hin)).
    unfold filtered_item in Hitem.
    apply andb_true_iff in Hitem. destruct Hitem as [Hitem H2].
    apply andb_true_iff in Hitem. destruct Hitem as [_ H1].
    now rewrite H1, H2. }
  pose proof (hasMatchingContent_found (contentItems doc (typeFilter v)) item
                (contentFilter v)
                (forallb_filter_plain _ doc Hp) Hc Hs) as Hh.
  destruct (contentItems doc (typeFilter v)) as [|x items] eqn:E;
    [contradiction|].
  unfold category_html in Hout. rewrite Hh, String.eqb_refl in Hout.
  cbn [andb] in Hout.
  destruct (render_items_extends v _ _ _ _ Hout) as [rest ->].
  exists rest. apply append_assoc_string.
Qed.

End Opening.

(** ** Loading, discovery and the fallback: what they leave on the page *)

(** X8.  [loadJsonFile] returns a document exactly when the response is a
    success whose body parses and whose content type is absent, empty or
    contains application/json; the document is the parsed body. *)
Theorem loadJsonFile_succeeds_iff (fetch : string -> fetch_outcome)
    (v : viewer) (fileName : string) (data : json) :
  loadJsonFile fetch v fileName = Returns data <->
  exists http_status content_type,
    fetch (dataDirectory v ++ "/" ++ fileName) =
    Response true http_status content_type (Some data) /\
    accepted_type content_type.
Proof.
  unfold loadJsonFile, accepted_type.
  destruct (fetch (dataDirectory v ++ "/" ++ fileName))
    as [|ok st ct body].
  - split; [discriminate | intros [? [? [? _]]]; discriminate].
  - destruct ok; simpl.
    + destruct ct as [t|]; simpl.
      * destruct (t =? "") eqn:Et; simpl.
        -- apply String.eqb_eq in Et. subst t.
           destruct body as [d|]; split; try discriminate.
           ++ intros H. injection H as ->. exists st, (Some "").
              split; [reflexivity | right; now left].
           ++ intros [? [? [H _]]]. now injection H as _ _ ->.
           ++ intros [? [? [H _]]]. discriminate.
        -- destruct (includes t "application/json") eqn:Ei; simpl.
           ++ destruct body as [d|]; split; try discriminate.
              ** intros H. injection H as ->. exists st, (Some t).
                 split; [reflexivity|]. right. right. exists t.
                 split; [reflexivity | now apply includes_iff].
              ** intros [? [? [H _]]]. now injection H as _ _ ->.
              ** intros [? [? [H _]]]. discriminate.
           ++ split; [discriminate|].
              intros [st' [ct' [H [A | [A | [t' [A S]]]]]]];
                injection H as _ <- _.
              ** discriminate.
              ** injection A as ->. discriminate.
              ** injection A as <-. apply includes_iff in S. congruence.
      * destruct body as [d|]; split; try discriminate.
        -- intros H. injection H as ->. exists st, None.
           split; [reflexivity | now left].
        -- intros [? [? [H _]]]. now injection H as _ _ ->.
        -- intros [? [? [H _]]]. discriminate.
    + split; [discriminate | intros [? [? [H _]]]; discriminate].
Qed.

Section AfterDiscovery.

Variable marked_parse : string -> string.
Variable marked_parse_other : json -> completion string.
Variable engine_replace : string -> string -> string -> completion string.
Variable SAMPLE_DATA : list (string * json).

Let handleSelection :=
  handleFileSelection marked_parse marked_parse_other engine_replace SAMPLE_DATA.
Let displaySelected :=
  displaySelectedContent marked_parse marked_parse_other engine_replace.
Let tryLoading :=
  tryLoadingFiles marked_parse marked_parse_other engine_replace SAMPLE_DATA.
Let useSample :=
  useSampleData marked_parse marked_parse_other engine_replace SAMPLE_DATA.
Let initialise :=
  init marked_parse marked_parse_other engine_replace SAMPLE_DATA.

Lemma untouched_handleSelection fetch (fileName : string) (v : viewer) :
  untouched (handleSelection fetch fileName v) = untouched v.
Proof.
  unfold handleSelection. now apply field_handleSelection.
Qed.

Lemma discovery_settles (net : nat -> string -> fetch_outcome)
    (v : viewer) :
  loaded_files (probes net v 0 (availableFiles v)) <> [] ->
  let v' := state_of (tryLoading net v) in
  display (statusMessage v') = "block" /\
  loadingIndicator v' = "none" /\
  change_listeners v' = S (change_listeners v).
Proof.
  intros Hne v'. subst v'. unfold tryLoading, tryLoadingFiles.
  set (v1 := showStatusMessage _ _ _).
  rewrite load_each_probes. cbn [app].
  change (availableFiles v1) with (availableFiles v).
  rewrite (probes_directory net v1 v) by reflexivity.
  destruct (loaded_files (probes net v 0 (availableFiles v)))
    as [|l ls] eqn:El; [congruence|].
  destruct (matched_files v1 _) as [|m ms] eqn:Em; cbn [displayFiles];
    fold handleSelection;
    match goal with
    | |- context [handleSelection ?f ?x ?u] =>
        pose proof (untouched_handleSelection f x u) as G;
        set (v5 := handleSelection f x u) in *
    end;
    unfold untouched in G; injection G as _ _ _ _ _ _ _ _ _ G5;
    cbn [state_of display statusMessage loadingIndicator change_listeners
         hideLoading showStatusMessage set_loadingIndicator
         set_statusMessage];
    rewrite G5; repeat split.
Qed.

(** X5.  After a discovery in which some candidate loaded, [jsonFiles]
    holds every loaded candidate (also when the list shows the matched ones
    only), the filter note counts the matched candidates, the list shows
    its first file as selected, the status line reports the number of
    loaded files, the loading indicator is hidden and one change listener
    has been added. *)
Theorem discovery_leaves_page (net : nat -> string -> fetch_outcome)
    (v : viewer) :
  let ps := probes net v 0 (availableFiles v) in
  loaded_files ps <> [] ->
  let v' := state_of (tryLoading net v) in
  jsonFiles v' = loaded_files ps /\
  filterInfo v' = filter_message v (List.length (matched_files v ps)) /\
  fileSelect_value v' = hd "" (fileSelect_options v') /\
  statusMessage v' =
  mkStatus "status-message info"
    (Plain ("Loaded " ++ nat_to_string (List.length (loaded_files ps)) ++
            " files successfully")) "block" /\
  loadingIndicator v' = "none" /\
  change_listeners v' = S (change_listeners v).
Proof.
  intros ps Hne v'. subst v'. unfold tryLoading, tryLoadingFiles.
  set (v1 := showStatusMessage _ _ _).
  rewrite load_each_probes. cbn [app].
  change (availableFiles v1) with (availableFiles v).
  rewrite (probes_directory net v1 v) by reflexivity. fold ps.
  change (matched_files v1 ps) with (matched_files v ps).
  destruct (loaded_files ps) as [|l ls] eqn:El; [congruence|].
  destruct (matched_files v ps) as [|m ms] eqn:Em; cbn [displayFiles];
    fold handleSelection;
    match goal with
    | |- context [handleSelection ?f ?x ?u] =>
        pose proof (untouched_handleSelection f x u) as G;
        set (v5 := handleSelection f x u) in *
    end;
    unfold untouched in G; injection G as _ _ _ _ G1 G2 G3 G4 _ G5;
    cbn [state_of jsonFiles filterInfo fileSelect_value fileSelect_options
         statusMessage loadingIndicator change_listeners hideLoading
         showStatusMessage set_loadingIndicator set_statusMessage];
    rewrite G1, G2, G3, G4, G5; repeat split.
Qed.

Lemma tryLoading_fails (net : nat -> string -> fetch_outcome) (v : viewer) :
  loaded_files (probes net v 0 (availableFiles v)) = [] ->
  tryLoading net v =
  Failed (Error "No files could be loaded")
    (hideLoading
       (set_jsonFiles []
          (showStatusMessage (Plain "Attempting to load JSON files...") "info"
             (showLoading v)))).
Proof.
  intros Hnil. unfold tryLoading, tryLoadingFiles.
  set (v1 := showStatusMessage _ _ _).
  rewrite load_each_probes. cbn [app].
  change (availableFiles v1) with (availableFiles v).
  rewrite (probes_directory net v1 v) by reflexivity.
  now rewrite Hnil.
Qed.

(** X6.  When no candidate loads and the built-in data set is not empty,
    [init] selects its first file and makes its data the current document;
    [jsonFiles] holds the built-in file names, and the filter note counts
    all of them as shown, none of them having been tested against the
    filter. *)
Theorem fallback_opens_first_sample (net : nat -> string -> fetch_outcome)
    (v : viewer) (firstFile : string) (data : json)
    (others : list (string * json)) :
  loaded_files (probes net v 0 (availableFiles v)) = [] ->
  SAMPLE_DATA = (firstFile, data) :: others ->
  let v' := state_of (initialise net v) in
  fileSelect_value v' = firstFile /\
  currentJsonData v' = data /\
  jsonFiles v' = map fst SAMPLE_DATA /\
  filterInfo v' = filter_message v (List.length SAMPLE_DATA) /\
  change_listeners v' = S (change_listeners v).
Proof.
  intros Hnil Hs v'. subst v'. unfold initialise, init. fold tryLoading.
  rewrite (tryLoading_fails net v Hnil). fold useSample.
  unfold useSample, useSampleData. rewrite Hs.
  match goal with
  | |- context [bind (updateTypeButtons ?u) ?k] =>
      pose proof (field_update_then_display marked_parse marked_parse_other
                    engine_replace _ untouched
                    (fun _ _ => eq_refl) (fun _ _ => eq_refl) u) as Hu;
      pose proof (field_update_then_display marked_parse marked_parse_other
                    engine_replace _ currentJsonData
                    (fun _ _ => eq_refl) (fun _ _ => eq_refl) u) as Hd;
      set (o := bind (updateTypeButtons u) k) in *
  end.
  unfold untouched in Hu. injection Hu as _ _ _ _ H1 _ H2 H3 _ H4.
  rewrite H1, H2, H3, H4, Hd. simpl.
  rewrite length_map. repeat split.
Qed.

(** X7.  A file of the built-in data set is selected without a request:
    the outcome does not depend on the network, and the built-in data
    becomes the current document. *)
Theorem built_in_file_needs_no_request (fetch fetch' : string -> fetch_outcome)
    (fileName : string) (data : json) (v : viewer) :
  assoc fileName SAMPLE_DATA = Some data -> truthy (Some data) = true ->
  handleSelection fetch fileName v = handleSelection fetch' fileName v /\
  currentJsonData (handleSelection fetch fileName v) = data.
Proof.
  intros Ha Ht. unfold handleSelection, handleFileSelection, lookup.
  rewrite Ha, Ht. split; [reflexivity|].
  pose proof (field_update_then_display marked_parse marked_parse_other
                engine_replace _ currentJsonData
                (fun _ _ => eq_refl) (fun _ _ => eq_refl)
                (set_currentJsonData data v)) as H.
  destruct (bind _ _); simpl in *; exact H.
Qed.

End AfterDiscovery.

(** ** More on titles *)

Lemma toUpperCase_word (c : ascii) :
  is_word (toUpperCase c) = is_word c /\
  toUpperCase (toUpperCase c) = toUpperCase c /\
  underscore (toUpperCase c) = underscore c.
Proof.
  destruct c as [[] [] [] [] [] [] [] []]; repeat split; reflexivity.
Qed.

Lemma title_head_no_underscore (prev : bool) (c : ascii) :
  let r := if underscore c then " "%char else c in
  underscore (if is_word r && negb prev then toUpperCase r else r) = false.
Proof.
  intros r. assert (underscore r = false) as Hr.
  { unfold r. destruct (underscore c) eqn:E; [reflexivity | exact E]. }
  destruct (is_word r && negb prev); [|exact Hr].
  now rewrite (proj2 (proj2 (toUpperCase_word r))).
Qed.

Lemma capitalize_from_stable (s : string) :
  forall prev,
    capitalize_from prev
      (replace_underscores (capitalize_from prev (replace_underscores s))) =
    capitalize_from prev (replace_underscores s).
Proof.
  induction s as [|c s IH]; intros prev; [reflexivity|].
  cbn [replace_underscores capitalize_from]. fold (underscore c).
  set (r := if underscore c then " "%char else c).
  pose proof (title_head_no_underscore prev c) as Hu. cbv zeta in Hu. fold r in Hu.
  set (c' := if is_word r && negb prev then toUpperCase r else r) in *.
  fold (underscore c'). rewrite Hu.
  assert (is_word c' = is_word r) as Hw.
  { unfold c'. destruct (is_word r && negb prev); [|reflexivity].
    apply toUpperCase_word. }
  rewrite Hw, IH. f_equal. unfold c'.
  destruct (is_word r && negb prev); [|reflexivity].
  apply toUpperCase_word.
Qed.

Lemma capitalize_from_no_underscore (s : string) :
  forall prev,
    includes (capitalize_from prev (replace_underscores s)) "_" = false.
Proof.
  induction s as [|c s IH]; intros prev; [reflexivity|].
  cbn [replace_underscores capitalize_from]. fold (underscore c).
  pose proof (title_head_no_underscore prev c) as Hu. cbv zeta in Hu.
  set (c' := if is_word _ && negb prev then _ else _) in *.
  cbn [includes prefix]. rewrite IH, orb_false_r.
  destruct (ascii_dec "_" c') as [E|_]; [|reflexivity].
  rewrite <- E in Hu. discriminate.
Qed.

(** X9.  A title holds no underscore, and deriving the title of a title
    gives the same title. *)
Theorem title_is_stable (s : string) :
  includes (title s) "_" = false /\ title (title s) = title s.
Proof.
  split; [apply capitalize_from_no_underscore | apply capitalize_from_stable].
Qed.

(** ** The manifest variant: discovery and failed loads *)

Lemma ends_with_iff (s suffix : string) :
  Manifest.ends_with s suffix = true <-> exists before, s = before ++ suffix.
Proof.
  induction s as [|c s IH]; cbn [Manifest.ends_with].
  - rewrite orb_false_r, String.eqb_eq. split.
    + intros <-. now exists "".
    + intros [before H]. destruct before; [exact H | discriminate].
  - rewrite orb_true_iff, String.eqb_eq, IH. split.
    + intros [<- | [before ->]]; [now exists "" | now exists (String c before)].
    + intros [before H]. destruct before as [|b before]; simpl in H.
      * now left.
      * right. injection H as _ H. now exists before.
Qed.

Lemma learnings_files_strings (names : list string) :
  Manifest.learnings_files (map JStr names) =
  Returns (filter (fun f => Manifest.ends_with f "_learnings.json") names).
Proof.
  induction names as [|f names IH]; [reflexivity|].
  cbn [map Manifest.learnings_files filter]. rewrite IH.
  now destruct (Manifest.ends_with f "_learnings.json").
Qed.

Lemma learnings_files_not_strings (files : list json) :
  (exists names, files = map JStr names) \/
  Manifest.learnings_files files = Throws EngineError.
Proof.
  induction files as [|x files IH]; [left; now exists []|].
  destruct x as [| | |s| |]; try (right; reflexivity).
  destruct IH as [[names ->] | H].
  - left. now exists (s :: names).
  - right. cbn [Manifest.learnings_files]. now rewrite H.
Qed.

Section ManifestDiscovery.

Variable marked_parse : string -> string.
Variable marked_parse_other : json -> completion string.
Variable engine_replace : string -> string -> string -> completion string.
Variable message : exn -> string.

Let display :=
  Manifest.displayContentByType marked_parse marked_parse_other engine_replace.
Let displaySelected :=
  Manifest.displaySelectedContent marked_parse marked_parse_other
    engine_replace.
Let handleSelection :=
  Manifest.handleFileSelection marked_parse marked_parse_other engine_replace
    message.
Let fetchFiles :=
  Manifest.fetchJsonFiles marked_parse marked_parse_other engine_replace
    message.

Lemma manifest_display_state (typeName : string) (v : viewer) :
  state_of (display typeName v) = v \/
  exists html, state_of (display typeName v) = set_contentOutput html v.
Proof.
  unfold display, Manifest.displayContentByType.
  destruct (negb (truthy (Some (currentJsonData v))));
    [right; eexists; reflexivity|].
  destruct (currentJsonData v) as [| | | |doc|]; try (left; reflexivity).
  destruct (contentItems doc typeName) as [|x items];
    [right; eexists; reflexivity|].
  destruct (hasMatchingContent (x :: items) (contentFilter v)) as [m|e];
    [|left; reflexivity].
  match goal with
  | |- state_of match ?a with _ => _ end = _ \/ _ => destruct a
  end; [right; eexists; reflexivity | left; reflexivity].
Qed.

Section Projection.

Variable A : Type.
Variable field : viewer -> A.
Hypothesis field_content : forall html v, field (set_contentOutput html v) = field v.
Hypothesis field_buttons : forall c v, field (set_typeButtons c v) = field v.
Hypothesis field_document : forall d v, field (set_currentJsonData d v) = field v.

Lemma manifest_field_display (typeName : string) (v : viewer) :
  field (state_of (display typeName v)) = field v.
Proof.
  destruct (manifest_display_state typeName v) as [-> | [html ->]];
    [reflexivity | apply field_content].
Qed.

Lemma manifest_field_displaySelected (v : viewer) :
  field (state_of (displaySelected v)) = field v.
Proof.
  unfold displaySelected, Manifest.displaySelectedContent.
  destruct (negb (truthy (Some (currentJsonData v))));
    [apply field_content|].
  destruct (currentJsonData v) as [| | | |doc|]; try reflexivity.
  destruct (matchingItems v doc) as [[|m ms]|e]; [| |reflexivity].
  - destruct doc as [|firstItem doc]; [apply field_content|].
    destruct (well_formed firstItem); [|reflexivity].
    unfold Manifest.displayContentByType_of.
    destruct (type_of firstItem) as [| | |t| |]; try reflexivity.
    pose proof (manifest_field_display t v) as H. fold display.
    destruct (display t v); simpl in *; [now rewrite field_buttons | exact H].
  - pose proof (manifest_field_display (typeFilter v) v) as H. fold display.
    destruct (display (typeFilter v) v); simpl in *;
      [now rewrite field_buttons | exact H].
Qed.

Lemma manifest_field_handleSelection fetch (fileName : string) (v : viewer) :
  field (state_of (handleSelection fetch fileName v)) = field v.
Proof.
  unfold handleSelection, Manifest.handleFileSelection.
  set (u := set_currentJsonData _ v).
  assert (field (state_of (Manifest.updateTypeButtons u)) = field v) as H.
  { unfold Manifest.updateTypeButtons.
    destruct (negb (truthy (Some (currentJsonData u))));
      [apply field_document|].
    destruct (currentJsonData u); simpl; rewrite ?field_buttons;
      apply field_document. }
  destruct (Manifest.updateTypeButtons u) as [u'|e u']; simpl in *;
    [|exact H].
  fold displaySelected. now rewrite manifest_field_displaySelected.
Qed.

End Projection.

Lemma manifest_probes_directory (net : nat -> string -> fetch_outcome)
    (v v' : viewer) (files : list string) :
  dataDirectory v = dataDirectory v' ->
  forall n,
    manifest_probes message net v n files =
    manifest_probes message net v' n files.
Proof.
  intros H. induction files as [|f files IH]; intros n; simpl;
    [reflexivity|].
  rewrite IH. unfold Manifest.loadJsonFile. now rewrite H.
Qed.

Lemma filter_each_arrays (net : nat -> string -> fetch_outcome) (v : viewer)
    (files : list string) :
  forall n filteredFiles,
    (forall f d, In (f, d) (manifest_probes message net v n files) ->
                 exists doc, d = JArr doc) ->
    Manifest.filter_each message net v n files filteredFiles =
    Returns (filteredFiles ++
             manifest_matched v (manifest_probes message net v n files))%list.
Proof.
  unfold manifest_matched.
  induction files as [|f files IH]; intros n F H.
  - simpl. now rewrite app_nil_r.
  - cbn [Manifest.filter_each manifest_probes filter map].
    destruct (H f _ (or_introl eq_refl)) as [doc ->].
    cbn [Manifest.fileContainsFilteredContent snd].
    rewrite IH by (intros g d Hin; apply (H g d); now right).
    cbn [fileContainsFilteredContent].
    destruct (existsb _ doc); cbn [map fst]; [|reflexivity].
    now rewrite <- app_assoc.
Qed.





Lemma manifest_probes_candidates (net : nat -> string -> fetch_outcome)
    (v : viewer) (files : list string) :
  forall n, map fst (manifest_probes message net v n files) = files.
Proof.
  induction files as [|f files IH]; intros n; simpl;
    [reflexivity | now rewrite IH].
Qed.



Section Listed.

Variable A : Type.
Variable field : viewer -> A.
Hypothesis field_content : forall html v, field (set_contentOutput html v) = field v.
Hypothesis field_buttons : forall c v, field (set_typeButtons c v) = field v.
Hypothesis field_document : forall d v, field (set_currentJsonData d v) = field v.
Hypothesis field_value : forall x v, field (set_value x v) = field v.

(** What discovery leaves in a field that no selection writes: the
    candidates are recorded, the filter note is written and the list is
    filled, whatever the selection of the first file does. *)
Lemma manifest_discovery_field (net : nat -> string -> fetch_outcome)
    (v : viewer) (ok : bool) (http_status : nat)
    (content_type : option string) (names : list string) :
  net 0 (dataDirectory v ++ "/file_manifest.json") =
  Response ok http_status content_type (Some (JArr (map JStr names))) ->
  let candidates :=
    filter (fun f => Manifest.ends_with f "_learnings.json") names in
  let ps := manifest_probes message net v 1 candidates in
  (forall f d, In (f, d) ps -> exists doc, d = JArr doc) ->
  field (fetchFiles net v) =
  field (set_options (displayFiles candidates (manifest_matched v ps))
           (updateFilterInfo (List.length (manifest_matched v ps))
              (set_jsonFiles candidates v))).
Proof.
  intros Hm candidates ps Harr.
  unfold fetchFiles, Manifest.fetchJsonFiles.
  rewrite Hm, learnings_files_strings. fold candidates.
  set (v1 := set_jsonFiles candidates v).
  assert (manifest_probes message net v1 1 candidates = ps) as Eps
    by now apply manifest_probes_directory.
  rewrite filter_each_arrays by (rewrite Eps; exact Harr).
  rewrite Eps. cbn [app].
  change (manifest_matched v1 ps) with (manifest_matched v ps).
  destruct (displayFiles candidates (manifest_matched v ps))
    as [|first rest]; [reflexivity|].
  fold handleSelection.
  match goal with
  | |- context [handleSelection ?f ?x ?u] =>
      pose proof (manifest_field_handleSelection _ field field_content
                    field_buttons field_document f x u) as H;
      destruct (handleSelection f x u) as [u'|e u']
  end; cbn [Manifest.caught state_of] in *;
    rewrite ?field_content, H; apply field_value.
Qed.

End Listed.

(** X10.  In the manifest variant, when the manifest is an array of names
    and every document obtained for a candidate is an array, the
    candidates are the names that end in _learnings.json, in the order of
    the manifest; a candidate whose load failed stays a candidate.  The
    list shows the candidates whose document matches the filter, or all
    candidates when none matches, and the filter note counts the matching
    ones. *)
Theorem manifest_discovery (net : nat -> string -> fetch_outcome) (v : viewer)
    (ok : bool) (http_status : nat) (content_type : option string)
    (names : list string) :
  net 0 (dataDirectory v ++ "/file_manifest.json") =
  Response ok http_status content_type (Some (JArr (map JStr names))) ->
  let candidates :=
    filter (fun f => Manifest.ends_with f "_learnings.json") names in
  let ps := manifest_probes message net v 1 candidates in
  (forall f d, In (f, d) ps -> exists doc, d = JArr doc) ->
  let v' := fetchFiles net v in
  jsonFiles v' = candidates /\
  fileSelect_options v' = displayFiles candidates (manifest_matched v ps) /\
  filterInfo v' =
  filter_message v (List.length (manifest_matched v ps)).
Proof.
  intros Hm candidates ps Harr v'. subst v'.
  unfold fetchFiles, Manifest.fetchJsonFiles.
  rewrite Hm, learnings_files_strings. fold candidates.
  set (v1 := set_jsonFiles candidates v).
  assert (manifest_probes message net v1 1 candidates = ps) as Eps
    by now apply manifest_probes_directory.
  rewrite filter_each_arrays by (rewrite Eps; exact Harr).
  rewrite Eps. cbn [app].
  change (manifest_matched v1 ps) with (manifest_matched v ps).
  set (matched := manifest_matched v ps).
  set (shown := displayFiles candidates matched).
  destruct shown as [|first rest] eqn:Es.
  - simpl. repeat split.
  - fold handleSelection.
    match goal with
    | |- context [handleSelection ?f ?x ?u] =>
        pose proof (manifest_field_handleSelection _ jsonFiles
                      (fun _ _ => eq_refl) (fun _ _ => eq_refl)
                      (fun _ _ => eq_refl) f x u) as H1;
        pose proof (manifest_field_handleSelection _ fileSelect_options
                      (fun _ _ => eq_refl) (fun _ _ => eq_refl)
                      (fun _ _ => eq_refl) f x u) as H2;
        pose proof (manifest_field_handleSelection _ filterInfo
                      (fun _ _ => eq_refl) (fun _ _ => eq_refl)
                      (fun _ _ => eq_refl) f x u) as H3;
        destruct (handleSelection f x u) as [u'|e u']
    end; simpl in *; rewrite H1, H2, H3; repeat split.
Qed.

(** X11.  In the manifest variant, unless the manifest is fetched and is
    an array of strings, [fetchJsonFiles] writes an error message into the
    content region and changes nothing else: the list of files, [jsonFiles]
    and the filter note are left as they were. *)
Theorem manifest_unusable (net : nat -> string -> fetch_outcome) (v : viewer) :
  (exists ok http_status content_type names,
      net 0 (dataDirectory v ++ "/file_manifest.json") =
      Response ok http_status content_type (Some (JArr (map JStr names)))) \/
  (exists e,
      fetchFiles net v =
      set_contentOutput ("<p>Error loading files: " ++ message e ++ "</p>") v).
Proof.
  unfold fetchFiles, Manifest.fetchJsonFiles.
  destruct (net 0 (dataDirectory v ++ "/file_manifest.json"))
    as [|ok st ct [[| | | |files|]|]];
    try (right; eexists; reflexivity).
  destruct (learnings_files_not_strings files) as [[names ->] | H].
  - left. now exists ok, st, ct, names.
  - right. rewrite H. eexists. reflexivity.
Qed.

(** X12.  In the manifest variant a selection whose load fails raises
    nothing: unless the type filter is error, the current document becomes
    the error document, the only button is the active button error, and
    the content region shows the category Error with the error text passed
    through the converter. *)
Theorem manifest_failed_selection_shows_error
    (fetch : string -> fetch_outcome) (fileName : string) (v : viewer) :
  typeFilter v <> "error" ->
  (fetch (dataDirectory v ++ "/" ++ fileName) = Rejected \/
   exists ok http_status content_type,
     fetch (dataDirectory v ++ "/" ++ fileName) =
     Response ok http_status content_type None) ->
  exists e,
    Manifest.on_change marked_parse marked_parse_other engine_replace message
      fetch fileName v =
    Done (set_typeButtons (Buttons [mkButton (JStr "error") true])
            (set_contentOutput
               ("<h2>" ++ replace_first "_learnings.json" "" fileName ++
                " - Error</h2>" ++
                "<div>" ++
                marked_parse ("Error loading file: " ++ message e) ++
                "</div>")
               (set_currentJsonData (Manifest.error_document message e)
                  (set_value fileName v)))).
Proof.
  intros Htf Hfetch.
  assert (exists e,
             Manifest.loadJsonFile message fetch (set_value fileName v)
               fileName = Manifest.error_document message e) as [e He].
  { unfold Manifest.loadJsonFile.
    change (dataDirectory (set_value fileName v)) with (dataDirectory v).
    destruct Hfetch as [-> | [ok [st [ct ->]]]]; eexists; reflexivity. }
  exists e. unfold Manifest.on_change, Manifest.handleFileSelection.
  rewrite He. unfold Manifest.error_document.
  assert (("error" =? typeFilter v) = false) as Hne.
  { apply String.eqb_neq. congruence. }
  set (summary := "Error loading file: " ++ message e).
  set (item := JObj [("type", JStr "error"); ("summary", JStr summary);
                     ("data", JNull)]).
  assert (category_types [item] = [JStr "error"]) as Hcat by reflexivity.
  assert (contentItems [item] "error" = [item]) as Hitems by reflexivity.
  assert (well_formed item = true) as Hwf by reflexivity.
  assert (type_of item = JStr "error") as Hty by reflexivity.
  assert (forall needle,
             summary_matches item needle = Returns (includes summary needle))
    as Hsum by reflexivity.
  assert (forall u, typeFilter u = typeFilter v ->
             matchingItems u [item] = Returns []) as Hnone.
  { intros u Hu. cbn [matchingItems]. rewrite Hu.
    change (is_object item && is_string (get "type" item) (typeFilter v))
      with ("error" =? typeFilter v).
    now rewrite Hne. }
  assert (forall u, typeFilter u = typeFilter v ->
             render_item marked_parse marked_parse_other engine_replace u
               "error" item =
             Returns ("<div>" ++ marked_parse summary ++ "</div>")) as Hblock.
  { intros u Hu. unfold render_item. rewrite Hu.
    change (get "summary" item) with (Some (JStr summary)).
    change (truthy (Some (JStr summary))) with true.
    cbn [negb]. now rewrite Hne, andb_false_r. }
  clearbody item.
  set (w := set_value fileName v).
  unfold Manifest.updateTypeButtons.
  cbn [set_currentJsonData currentJsonData truthy negb]. rewrite Hcat.
  cbn [map bind]. unfold Manifest.displaySelectedContent.
  cbn [set_typeButtons set_currentJsonData currentJsonData truthy negb].
  rewrite Hnone by reflexivity. rewrite Hwf, Hty.
  unfold Manifest.displayContentByType_of, Manifest.displayContentByType.
  cbn [set_typeButtons set_currentJsonData currentJsonData truthy negb
       contentFilter typeFilter].
  rewrite Hitems. cbn [hasMatchingContent]. rewrite Hsum.
  assert (forall html,
            render_items marked_parse marked_parse_other engine_replace
              (set_typeButtons (Buttons [mkButton (JStr "error") false])
                 (set_typeButtons (Buttons [])
                    (set_currentJsonData (JArr [item]) w)))
              "error" [item] html =
            Returns (html ++ "<div>" ++ marked_parse summary ++ "</div>"))
    as Hrender.
  { intros html. cbn [render_items]. now rewrite Hblock by reflexivity. }
  change (typeFilter w) with (typeFilter v). rewrite Hne. cbn [andb].
  destruct (includes summary (contentFilter w)); rewrite Hrender;
    cbn [and_then]; unfold Manifest.header, Manifest.title;
    rewrite !append_assoc_string; reflexivity.
Qed.

End ManifestDiscovery.

(** ** The two variants side by side

    The specification describes one viewer; the repository holds two.  The
    properties of discovery, of the fallback and of a failed selection hold
    of src/script.js.  The manifest variant never lets a load fail and has
    no built-in data set, and each property is stated here with what that
    variant does in its place. *)

(** C1.  In src/script.js a run of [tryLoadingFiles] probes the candidates
    in the order of [availableFiles].  When some candidate matched the
    filter, the list of files shows exactly the matched candidates; when
    none matched and some loaded, it shows every loaded candidate; both in
    the order of the candidates.  When none loaded the run fails.
    In the manifest variant the candidates are the names of the manifest
    that end in _learnings.json, each with the document its load gave (the
    error document when the load failed).  When every such document is an
    array, the list shows the candidates whose document matched or, when
    none matched, every candidate, loaded or not. *)
Theorem discovery_display_policy
    (marked_parse : string -> string)
    (marked_parse_other : json -> completion string)
    (engine_replace : string -> string -> string -> completion string)
    (SAMPLE_DATA : list (string * json)) (message : exn -> string)
    (net : nat -> string -> fetch_outcome) (v : viewer) :
  (let ps := probes net v 0 (availableFiles v) in
   let tryLoading :=
     tryLoadingFiles marked_parse marked_parse_other engine_replace
       SAMPLE_DATA in
   map fst ps = availableFiles v /\
   match matched_files v ps, loaded_files ps with
   | _ :: _, _ =>
       exists v', tryLoading net v = Done v' /\
                  fileSelect_options v' = matched_files v ps
   | [], _ :: _ =>
       exists v', tryLoading net v = Done v' /\
                  fileSelect_options v' = loaded_files ps
   | [], [] =>
       exists v', tryLoading net v = Failed (Error "No files could be loaded") v'
   end) /\
  (forall ok http_status content_type names,
      net 0 (dataDirectory v ++ "/file_manifest.json") =
      Response ok http_status content_type (Some (JArr (map JStr names))) ->
      let candidates :=
        filter (fun f => Manifest.ends_with f "_learnings.json") names in
      let ps := manifest_probes message net v 1 candidates in
      (forall f d, In (f, d) ps -> exists doc, d = JArr doc) ->
      let v' := Manifest.fetchJsonFiles marked_parse marked_parse_other
                  engine_replace message net v in
      map fst ps = candidates /\
      match manifest_matched v ps with
      | _ :: _ => fileSelect_options v' = manifest_matched v ps
      | [] => fileSelect_options v' = candidates
      end).
Proof.
  split.
  - intros ps tryLoading. split; [apply probes_candidates|].
    apply tryLoading_outcome.
  - intros ok st ct names Hm candidates ps Harr v'.
    split; [apply manifest_probes_candidates|].
    pose proof (manifest_discovery_field marked_parse marked_parse_other
                  engine_replace message _ fileSelect_options
                  (fun _ _ => eq_refl) (fun _ _ => eq_refl)
                  (fun _ _ => eq_refl) (fun _ _ => eq_refl)
                  net v ok st ct names Hm Harr) as H.
    cbn [fileSelect_options set_options] in H. fold candidates ps v' in H.
    destruct (manifest_matched v ps); exact H.
Qed.

(** C1 as stated fails on the manifest variant.  Of two candidates the
    first loads and does not match, the second cannot be fetched: the only
    loaded file is the first, and the list shows both. *)
Lemma discovery_lists_failed_candidate :
  let plain_doc := JArr [entry "architecture" "Layered"] in
  let net := fun (n : nat) (_ : string) =>
               match n with
               | 0 => Response true 200 (Some "application/json")
                        (Some (JArr [JStr "a_learnings.json";
                                     JStr "b_learnings.json"]))
               | 2 => Rejected
               | _ => Response true 200 (Some "application/json")
                        (Some plain_doc)
               end in
  let candidates := ["a_learnings.json"; "b_learnings.json"] in
  let ps := manifest_probes (fun _ => "Failed to fetch") net default_viewer 1
              candidates in
  manifest_matched default_viewer ps = [] /\
  manifest_loaded net default_viewer 1 candidates = ["a_learnings.json"] /\
  fileSelect_options
    (Manifest.fetchJsonFiles paragraph no_converter no_engine
       (fun _ => "Failed to fetch") net default_viewer) =
  ["a_learnings.json"; "b_learnings.json"].
Proof. repeat split. Qed.





Section Settled.

Variable marked_parse : string -> string.
Variable marked_parse_other : json -> completion string.
Variable engine_replace : string -> string -> string -> completion string.
Variable SAMPLE_DATA : list (string * json).

Let handleSelection :=
  handleFileSelection marked_parse marked_parse_other engine_replace SAMPLE_DATA.
Let tryLoading :=
  tryLoadingFiles marked_parse marked_parse_other engine_replace SAMPLE_DATA.
Let initialise :=
  init marked_parse marked_parse_other engine_replace SAMPLE_DATA.

(** X13.  However [init] ends (after a discovery, after the fallback, or
    by an exception of the fallback's rendering), the loading indicator is
    hidden, exactly one change listener has been added, and the status
    line is visible.  After every [change] event the loading indicator is
    hidden and no listener has been added. *)
Theorem init_settles (net : nat -> string -> fetch_outcome)
    (fetch : string -> fetch_outcome) (fileName : string) (v : viewer) :
  let v' := state_of (initialise net v) in
  let v'' := on_change marked_parse marked_parse_other engine_replace
               SAMPLE_DATA fetch fileName v in
  loadingIndicator v' = "none" /\
  change_listeners v' = S (change_listeners v) /\
  display (statusMessage v') = "block" /\
  loadingIndicator v'' = "none" /\
  change_listeners v'' = change_listeners v.
Proof.
  intros v' v''.
  assert (loadingIndicator v' = "none" /\
          change_listeners v' = S (change_listeners v) /\
          display (statusMessage v') = "block") as G.
  { subst v'. unfold initialise, init.
    destruct (loaded_files (probes net v 0 (availableFiles v)))
      as [|l ls] eqn:El.
    - rewrite (tryLoading_fails marked_parse marked_parse_other engine_replace
                 SAMPLE_DATA net v El).
      unfold useSampleData.
      destruct SAMPLE_DATA as [|[firstFile data] others]; [repeat split|].
      match goal with
      | |- context [bind (updateTypeButtons ?u) ?k] =>
          pose proof (field_update_then_display marked_parse
                        marked_parse_other engine_replace _ untouched
                        (fun _ _ => eq_refl) (fun _ _ => eq_refl) u) as Hu;
          pose proof (field_update_then_display marked_parse
                        marked_parse_other engine_replace _ statusMessage
                        (fun _ _ => eq_refl) (fun _ _ => eq_refl) u) as Hs;
          set (o := bind (updateTypeButtons u) k) in *
      end.
      unfold untouched in Hu. injection Hu as _ _ _ _ _ _ _ _ H1 H2.
      rewrite H1, H2, Hs. repeat split.
    - assert (loaded_files (probes net v 0 (availableFiles v)) <> []) as Hne
        by congruence.
      pose proof (discovery_settles marked_parse marked_parse_other
                    engine_replace SAMPLE_DATA net v Hne) as H.
      cbv zeta in H.
      destruct (tryLoadingFiles _ _ _ _ net v) as [u|e u] eqn:Et; simpl in *.
      + destruct H as [H1 [H2 H3]]. repeat split; assumption.
      + pose proof (tryLoading_outcome marked_parse marked_parse_other
                      engine_replace SAMPLE_DATA net v) as Ho.
        cbv zeta in Ho. rewrite El, Et in Ho.
        destruct (matched_files v _); destruct Ho as [? [Ho _]];
          discriminate. }
  destruct G as [G1 [G2 G3]]. repeat split; try assumption.
  subst v''. unfold on_change. cbn [hideLoading set_loadingIndicator
                                    change_listeners].
  pose proof (field_handleSelection marked_parse marked_parse_other
                engine_replace SAMPLE_DATA _ change_listeners
                (fun _ _ => eq_refl) (fun _ _ => eq_refl)
                (fun _ _ => eq_refl) (fun _ _ => eq_refl)
                fetch fileName (showLoading (set_value fileName v))) as H.
  exact H.
Qed.

End Settled.

(** ** Selecting the same file again *)

Lemma loadJsonFile_directory (fetch : string -> fetch_outcome)
    (v v' : viewer) (fileName : string) :
  dataDirectory v = dataDirectory v' ->
  loadJsonFile fetch v fileName = loadJsonFile fetch v' fileName.
Proof. intros H. unfold loadJsonFile. now rewrite H. Qed.

Lemma matchingItems_filters (v v' : viewer) (doc : list json) :
  contentFilter v = contentFilter v' -> typeFilter v = typeFilter v' ->
  matchingItems v doc = matchingItems v' doc.
Proof.
  intros Hc Ht. induction doc as [|item doc IH]; [reflexivity|].
  cbn [matchingItems]. now rewrite IH, Hc, Ht.
Qed.

Section Again.

Variable marked_parse : string -> string.
Variable marked_parse_other : json -> completion string.
Variable engine_replace : string -> string -> string -> completion string.
Variable SAMPLE_DATA : list (string * json).

Let display := displayContentByType marked_parse marked_parse_other engine_replace.
Let display_of :=
  displayContentByType_of marked_parse marked_parse_other engine_replace.
Let displaySelected :=
  displaySelectedContent marked_parse marked_parse_other engine_replace.
Let handleSelection :=
  handleFileSelection marked_parse marked_parse_other engine_replace SAMPLE_DATA.

Lemma display_of_inputs (typeName : json) (v v' : viewer) :
  contentFilter v = contentFilter v' -> typeFilter v = typeFilter v' ->
  fileSelect_value v = fileSelect_value v' ->
  currentJsonData v = currentJsonData v' ->
  rendered (display_of typeName v) = rendered (display_of typeName v').
Proof.
  intros Hc Ht Hv Hd. unfold display_of, displayContentByType_of.
  destruct typeName; try reflexivity.
  now apply display_inputs.
Qed.

Ltac page_step :=
  cbn [bind and_then report state_of set_currentJsonData set_typeButtons
       set_contentOutput set_statusMessage showStatusMessage currentJsonData
       typeButtonsContainer contentOutput statusMessage typeFilter
       contentFilter fileSelect_value dataDirectory truthy negb].

Lemma updateTypeButtons_array (z : viewer) (doc : list json) :
  currentJsonData z = JArr doc ->
  updateTypeButtons z = Done (set_typeButtons (buttons_of doc) z).
Proof.
  intros H. unfold updateTypeButtons, buttons_of. rewrite H.
  cbn [truthy negb]. destruct (category_types doc); reflexivity.
Qed.

Ltac again_buttons :=
  match goal with
  | |- context [updateTypeButtons (set_currentJsonData (JArr ?d) ?z)] =>
      rewrite (updateTypeButtons_array (set_currentJsonData (JArr d) z) d)
        by reflexivity;
      page_step
  end.

(** How [displaySelectedContent] ends on an array, in terms of what is
    rendered for the chosen category. *)
Lemma displaySelected_array (x : viewer) (doc : list json) :
  currentJsonData x = JArr doc ->
  displaySelected x =
  match matchingItems x doc with
  | Throws e => Failed e x
  | Returns (_ :: _) =>
      match rendered (display (typeFilter x) x) with
      | Returns html =>
          Done (set_typeButtons
                  (activate_if (fun b => ToString (label b) =? typeFilter x)
                     (typeButtonsContainer x))
                  (set_contentOutput html x))
      | Throws e => Failed e x
      end
  | Returns [] =>
      match doc with
      | firstItem :: _ =>
          if well_formed firstItem then
            match rendered (display_of (type_of firstItem) x) with
            | Returns html =>
                Done (set_typeButtons
                        (activate_first (typeButtonsContainer x))
                        (set_contentOutput html x))
            | Throws e => Failed e x
            end
          else Done x
      | [] =>
          Done (set_contentOutput
                  "<p>No content found in the selected file</p>" x)
      end
  end.
Proof.
  intros Hd. unfold displaySelected, displaySelectedContent.
  rewrite Hd. cbn [truthy negb].
  destruct (matchingItems x doc) as [[|m ms]|e]; [| |reflexivity].
  - destruct doc as [|firstItem doc]; [reflexivity|].
    destruct (well_formed firstItem); [|reflexivity].
    fold display_of. rewrite (display_of_shape marked_parse marked_parse_other
                                engine_replace).
    fold display_of.
    destruct (rendered (display_of (type_of firstItem) x)); reflexivity.
  - fold display. rewrite (display_shape marked_parse marked_parse_other
                             engine_replace).
    fold display.
    destruct (rendered (display (typeFilter x) x)); reflexivity.
Qed.

Lemma render_again (data : json) (x : viewer) :
  let run z := bind (updateTypeButtons (set_currentJsonData data z))
                 displaySelected in
  report "Error: " (run (report "Error: " (run x))) =
  report "Error: " (run x).
Proof.
  intros run. unfold run.
  destruct (truthy (Some data)) eqn:Etruthy.
  - destruct data as [|b|z|s|doc|fields]; cbn [truthy] in Etruthy;
      try discriminate.
    + subst b. reflexivity.
    + unfold updateTypeButtons. page_step. rewrite Etruthy. reflexivity.
    + unfold updateTypeButtons. page_step. rewrite Etruthy. reflexivity.
    + set (B := buttons_of doc).
      rewrite (updateTypeButtons_array (set_currentJsonData (JArr doc) x) doc)
        by reflexivity.
      fold B. page_step.
      set (x0 := set_typeButtons B (set_currentJsonData (JArr doc) x)).
      rewrite (displaySelected_array x0 doc) by reflexivity.
      assert (forall z,
                 contentFilter z = contentFilter x ->
                 typeFilter z = typeFilter x ->
                 fileSelect_value z = fileSelect_value x ->
                 let z0 := set_typeButtons B
                             (set_currentJsonData (JArr doc) z) in
                 matchingItems z0 doc = matchingItems x0 doc /\
                 (forall t, rendered (display t z0) = rendered (display t x0)) /\
                 (forall t, rendered (display_of t z0) =
                            rendered (display_of t x0))) as Hsame.
      { intros z Hc Ht Hv z0. split; [|split].
        - now apply matchingItems_filters.
        - intros t. now apply display_inputs.
        - intros t. now apply display_of_inputs. }
      destruct (matchingItems x0 doc) as [[|m ms]|e] eqn:EM.
      * destruct doc as [|firstItem rest] eqn:Edoc.
        -- page_step; again_buttons.
           match goal with
           | |- context [displaySelected ?z] =>
               rewrite (displaySelected_array z []) by reflexivity;
               destruct (Hsame (set_contentOutput
                                  "<p>No content found in the selected file</p>"
                                  x0) eq_refl eq_refl eq_refl) as [H1 _]
           end.
           cbv zeta in H1. page_step.
           rewrite (matchingItems_filters _ x0) by reflexivity.
           rewrite EM. reflexivity.
        -- destruct (well_formed firstItem) eqn:Ewf.
           ++ destruct (rendered (display_of (type_of firstItem) x0))
                as [h|e] eqn:ER; page_step; again_buttons;
                match goal with
                | |- context [displaySelected ?z] =>
                    rewrite (displaySelected_array z (firstItem :: rest))
                      by reflexivity
                end;
                rewrite (matchingItems_filters _ x0) by reflexivity;
                rewrite EM, Ewf;
                rewrite (display_of_inputs _ _ x0) by reflexivity;
                rewrite ER; reflexivity.
           ++ page_step; again_buttons.
              match goal with
              | |- context [displaySelected ?z] =>
                  rewrite (displaySelected_array z (firstItem :: rest))
                    by reflexivity
              end.
              rewrite (matchingItems_filters _ x0) by reflexivity.
              rewrite EM, Ewf. reflexivity.
      * destruct (rendered (display (typeFilter x0) x0)) as [h|e] eqn:ER;
          page_step; again_buttons;
          match goal with
          | |- context [displaySelected ?z] =>
              rewrite (displaySelected_array z doc) by reflexivity
          end;
          rewrite (matchingItems_filters _ x0) by reflexivity;
          rewrite EM;
          rewrite (display_inputs marked_parse marked_parse_other
                     engine_replace _ _ x0) by reflexivity;
          page_step; fold display; rewrite ER; reflexivity.
      * page_step; again_buttons.
        match goal with
        | |- context [displaySelected ?z] =>
            rewrite (displaySelected_array z doc) by reflexivity
        end.
        rewrite (matchingItems_filters _ x0) by reflexivity.
        rewrite EM. reflexivity.
    + reflexivity.
  - assert (forall z, updateTypeButtons (set_currentJsonData data z) =
                      Done (set_currentJsonData data z)) as HU.
    { intros z. unfold updateTypeButtons.
      change (currentJsonData (set_currentJsonData data z)) with data.
      now rewrite Etruthy. }
    assert (forall z, currentJsonData z = data ->
              displaySelected z =
              Done (set_contentOutput
                      "<p>Please select a file to view content</p>" z)) as HD.
    { intros z Hz. unfold displaySelected, displaySelectedContent.
      now rewrite Hz, Etruthy. }
    rewrite (HU x). cbn [bind]. rewrite HD by reflexivity. cbn [report].
    rewrite HU. cbn [bind]. rewrite HD by reflexivity. reflexivity.
Qed.

(** X14.  Selecting a file again, with the same answer from the server,
    leaves the page as the first selection left it. *)
Theorem selecting_again_changes_nothing (fetch : string -> fetch_outcome)
    (fileName : string) (v : viewer) :
  handleSelection fetch fileName (handleSelection fetch fileName v) =
  handleSelection fetch fileName v.
Proof.
  assert (dataDirectory (handleSelection fetch fileName v) = dataDirectory v)
    as Hdir.
  { unfold handleSelection.
    apply (field_handleSelection marked_parse marked_parse_other
             engine_replace SAMPLE_DATA _ dataDirectory);
      intros; reflexivity. }
  unfold handleSelection, handleFileSelection in *.
  destruct (truthy (lookup fileName SAMPLE_DATA)).
  - fold displaySelected. apply render_again.
  - match goal with
    | |- context [loadJsonFile fetch ?z fileName] =>
        lazymatch z with
        | v => fail
        | _ => replace (loadJsonFile fetch z fileName)
                 with (loadJsonFile fetch v fileName)
                 by (apply loadJsonFile_directory; symmetry; exact Hdir)
        end
    end.
    destruct (loadJsonFile fetch v fileName) as [data|e]; [|reflexivity].
    fold displaySelected. apply render_again.
Qed.

End Again.

(** ** The buttons do not depend on the order of the entries *)

Lemma string_compare_trans (a : string) :
  forall b c,
    String.compare a b <> Gt -> String.compare b c <> Gt ->
    String.compare a c <> Gt.
Proof.
  induction a as [|x a IH]; intros [|y b] [|z c] Hab Hbc; simpl in *;
    try congruence.
  destruct (Ascii.compare x y) eqn:Exy; try congruence;
    destruct (Ascii.compare y z) eqn:Eyz; try congruence.
  - apply Ascii.compare_eq_iff in Exy, Eyz. subst.
    unfold Ascii.compare. rewrite N.compare_refl. now apply (IH b c).
  - apply Ascii.compare_eq_iff in Exy. subst. now rewrite Eyz.
  - apply Ascii.compare_eq_iff in Eyz. subst. now rewrite Exy.
  - unfold Ascii.compare in *.
    apply N.compare_lt_iff in Exy. apply N.compare_lt_iff in Eyz.
    pose proof (N.lt_trans _ _ _ Exy Eyz) as H.
    apply N.compare_lt_iff in H. now rewrite H.
Qed.

Lemma label_le_trans (a b c : string) :
  label_le a b -> label_le b c -> label_le a c.
Proof.
  unfold label_le, String.leb. intros Hab Hbc.
  pose proof (string_compare_trans a b c) as H.
  destruct (String.compare a b); destruct (String.compare b c);
    destruct (String.compare a c); try reflexivity; try discriminate;
    exfalso; apply H; congruence.
Qed.

Lemma sorted_head_least (a : string) (l : list string) :
  Sorted label_le (a :: l) -> forall x, In x l -> label_le a x.
Proof.
  revert a. induction l as [|b l IH]; intros a H x Hin; [contradiction|].
  inversion H as [|? ? Hl Hhd]; subst. inversion Hhd as [|? ? Hab]; subst.
  destruct Hin as [<- | Hin]; [exact Hab|].
  apply (label_le_trans a b x Hab). now apply IH.
Qed.

Lemma sorted_lists_equal (l1 : list string) :
  forall l2,
    Sorted label_le l1 -> Sorted label_le l2 -> NoDup l1 -> NoDup l2 ->
    (forall x, In x l1 <-> In x l2) -> l1 = l2.
Proof.
  induction l1 as [|a l1 IH]; intros [|b l2] S1 S2 N1 N2 H.
  - reflexivity.
  - exfalso. apply (proj2 (H b)). now left.
  - exfalso. apply (proj1 (H a)). now left.
  - assert (a = b) as ->.
    { destruct (proj1 (H a) (or_introl eq_refl)) as [E | Ha]; [now subst|].
      destruct (proj2 (H b) (or_introl eq_refl)) as [E | Hb]; [now subst|].
      apply String.leb_antisym.
      - now apply (sorted_head_least a l1 S1).
      - now apply (sorted_head_least b l2 S2). }
    f_equal. inversion S1; inversion S2; inversion N1; inversion N2; subst.
    apply IH; try assumption.
    intros x. split; intros Hx.
    + destruct (proj1 (H x) (or_intror Hx)) as [E | Hx']; [|exact Hx'].
      subst. contradiction.
    + destruct (proj2 (H x) (or_intror Hx)) as [E | Hx']; [|exact Hx'].
      subst. contradiction.
Qed.

Lemma string_types_labels (types : list json) :
  (forall t, In t types -> exists s, t = JStr s) ->
  types = map JStr (map ToString types).
Proof.
  induction types as [|t types IH]; intros H; [reflexivity|].
  destruct (H t (or_introl eq_refl)) as [s ->]. simpl. f_equal.
  apply IH. intros u Hu. apply H. now right.
Qed.

Lemma string_types_NoDup (types : list json) :
  (forall t, In t types -> exists s, t = JStr s) ->
  NoDup (filter primitive types) -> NoDup (map ToString types).
Proof.
  induction types as [|t types IH]; intros Hstr Hnd; simpl; [constructor|].
  destruct (Hstr t (or_introl eq_refl)) as [s ->]. simpl in *.
  inversion Hnd as [|? ? Hnotin Hnd']; subst. constructor.
  - intros Hin. apply Hnotin. apply in_map_iff in Hin.
    destruct Hin as [u [Hu Hin]].
    destruct (Hstr u (or_intror Hin)) as [s' ->]. simpl in Hu. subst s'.
    apply filter_In. now split.
  - apply IH; [|exact Hnd']. intros u Hu. apply Hstr. now right.
Qed.

(** X15.  Two documents with the same entries, in whatever order and
    however often repeated, whose categories are strings, get the same
    buttons in the same order. *)
Theorem buttons_ignore_entry_order (doc doc' : list json) :
  (forall item, In item doc <-> In item doc') ->
  (forall t, In t (category_types doc) -> exists s, t = JStr s) ->
  category_types doc = category_types doc'.
Proof.
  intros Hsame Hstr.
  assert (forall t, In t (category_types doc) <-> In t (category_types doc'))
    as Hin.
  { intros t. rewrite !In_category_types.
    split; intros [fields [H1 H2]]; exists fields; split;
      try assumption; now apply Hsame. }
  assert (forall t, In t (category_types doc') -> exists s, t = JStr s)
    as Hstr'.
  { intros t Ht. apply Hstr. now apply Hin. }
  rewrite (string_types_labels _ Hstr), (string_types_labels _ Hstr').
  f_equal. apply sorted_lists_equal.
  - apply Sorted_map_ToString, sort_sorted.
  - apply Sorted_map_ToString, sort_sorted.
  - apply string_types_NoDup; [exact Hstr | apply category_types_distinct].
  - apply string_types_NoDup; [exact Hstr' | apply category_types_distinct].
  - intros x. rewrite !in_map_iff.
    split; intros [t [Ht Hx]]; exists t; split; try assumption;
      now apply Hin.
Qed.

(** ** The further theorems at explicit inputs *)

Lemma click_marks_one_button_witness :
  let doc := [entry "tech_choices" "Testing Frameworks: Jest";
              entry "architecture" "Layered"] in
  let bs := [mkButton (JStr "architecture") false;
             mkButton (JStr "tech_choices") true] in
  let v := set_typeButtons (Buttons bs)
             (set_currentJsonData (JArr doc) default_viewer) in
  let v' := state_of (on_click paragraph no_converter no_engine 0 v) in
  exists bs',
    typeButtonsContainer v' = Buttons bs' /\
    map label bs' = map label bs /\
    (forall j, option_map active (nth_error bs' j) =
               option_map (fun _ => Nat.eqb j 0) (nth_error bs j)) /\
    currentJsonData v' = currentJsonData v /\
    fileSelect_options v' = fileSelect_options v.
Proof.
  intros doc bs v.
  exact (click_marks_one_button paragraph no_converter no_engine 0 bs v
           eq_refl (Nat.lt_0_succ 1)).
Defined.

Lemma every_button_has_content_witness :
  let doc := [entry "tech_choices" "Testing Frameworks: Jest";
              entry "architecture" "Layered"] in
  contentItems doc "architecture" <> [] /\
  rendered (displayContentByType paragraph no_converter no_engine
              "architecture" (set_currentJsonData (JArr doc) default_viewer)) =
  category_html paragraph no_converter no_engine default_viewer "architecture"
    (contentItems doc "architecture").
Proof.
  intros doc.
  exact (every_button_has_content paragraph no_converter no_engine
           default_viewer doc "architecture" (or_introl eq_refl)).
Defined.

Lemma listed_match_opens_on_filter_witness :
  let doc := [entry "architecture" "Layered";
              entry "tech_choices" "Testing Frameworks: Jest"] in
  let u := set_currentJsonData (JArr doc) default_viewer in
  rendered (displaySelectedContent paragraph no_converter no_engine u) =
  rendered (displayContentByType paragraph no_converter no_engine
              "tech_choices" u).
Proof.
  intros doc u.
  exact (proj1 (proj2 (listed_match_opens_on_filter paragraph no_converter
                         no_engine default_viewer doc eq_refl eq_refl))).
Defined.

Lemma discovery_leaves_page_witness :
  let hit_doc := JArr [entry "tech_choices" "Testing Frameworks: Jest"] in
  let plain_doc := JArr [entry "architecture" "Layered"] in
  let net := serve [("./data/a_learnings.json", plain_doc);
                    ("./data/b_learnings.json", hit_doc)] in
  let v' := state_of (tryLoadingFiles paragraph no_converter no_engine [] net
                        three_candidates) in
  jsonFiles v' = ["a_learnings.json"; "b_learnings.json"] /\
  fileSelect_options v' = ["b_learnings.json"] /\
  statusMessage v' =
  mkStatus "status-message info" (Plain "Loaded 2 files successfully") "block".
Proof.
  intros hit_doc plain_doc net v'.
  assert (loaded_files (probes net three_candidates 0
                          (availableFiles three_candidates)) <> []) as Hne
    by discriminate.
  destruct (discovery_leaves_page paragraph no_converter no_engine [] net
              three_candidates Hne) as [H1 [_ [_ [H4 _]]]].
  split; [exact H1|]. split; [reflexivity | exact H4].
Defined.

Lemma fallback_opens_first_sample_witness :
  let data := JArr [entry "tech_choices" "Testing Frameworks: Jest"] in
  let sample := [("sample_learnings.json", data)] in
  let v' := state_of (init paragraph no_converter no_engine sample (serve [])
                        three_candidates) in
  fileSelect_value v' = "sample_learnings.json" /\
  currentJsonData v' = data /\
  jsonFiles v' = ["sample_learnings.json"] /\
  filterInfo v' = filter_message three_candidates 1 /\
  change_listeners v' = 1.
Proof.
  intros data sample.
  exact (fallback_opens_first_sample paragraph no_converter no_engine sample
           (serve []) three_candidates "sample_learnings.json" data []
           eq_refl eq_refl).
Defined.

Lemma built_in_file_needs_no_request_witness :
  let data := JArr [entry "tech_choices" "Testing Frameworks: Jest"] in
  let sample := [("sample_learnings.json", data)] in
  handleFileSelection paragraph no_converter no_engine sample
    (fun _ => Rejected) "sample_learnings.json" default_viewer =
  handleFileSelection paragraph no_converter no_engine sample
    (serve [] 0) "sample_learnings.json" default_viewer /\
  currentJsonData
    (handleFileSelection paragraph no_converter no_engine sample
       (fun _ => Rejected) "sample_learnings.json" default_viewer) = data.
Proof.
  intros data sample.
  exact (built_in_file_needs_no_request paragraph no_converter no_engine
           sample (fun _ => Rejected) (serve [] 0) "sample_learnings.json"
           data default_viewer eq_refl eq_refl).
Defined.

Lemma manifest_discovery_witness :
  let net := fun (n : nat) (url : string) =>
               match n with
               | O => Response true 200 (Some "application/json")
                        (Some (JArr (map JStr ["a_learnings.json"; "notes.txt";
                                               "b_learnings.json"])))
               | 1 => Response true 200 None
                        (Some (JArr [entry "tech_choices"
                                       "Testing Frameworks: Jest"]))
               | _ => Rejected
               end in
  let v' := Manifest.fetchJsonFiles paragraph no_converter no_engine
              (fun _ => "Failed to fetch") net default_viewer in
  jsonFiles v' = ["a_learnings.json"; "b_learnings.json"] /\
  fileSelect_options v' = ["a_learnings.json"].
Proof.
  intros net.
  assert (forall f d,
             In (f, d)
               (manifest_probes (fun _ => "Failed to fetch") net default_viewer
                  1 ["a_learnings.json"; "b_learnings.json"]) ->
             exists doc, d = JArr doc) as Harr.
  { intros f d [E | [E | []]]; injection E as _ <-; eexists; reflexivity. }
  destruct (manifest_discovery paragraph no_converter no_engine
              (fun _ => "Failed to fetch") net default_viewer true 200
              (Some "application/json")
              ["a_learnings.json"; "notes.txt"; "b_learnings.json"]
              eq_refl Harr) as [H1 [H2 _]].
  split; [exact H1 | exact H2].
Defined.

Lemma manifest_failed_selection_shows_error_witness :
  exists e,
    Manifest.on_change paragraph no_converter no_engine
      (fun _ => "Failed to fetch") (fun _ => Rejected) "gone_learnings.json"
      default_viewer =
    Done (set_typeButtons (Buttons [mkButton (JStr "error") true])
            (set_contentOutput
               ("<h2>" ++ replace_first "_learnings.json" ""
                            "gone_learnings.json" ++
                " - Error</h2>" ++
                "<div>" ++
                paragraph ("Error loading file: " ++ "Failed to fetch") ++
                "</div>")
               (set_currentJsonData
                  (Manifest.error_document (fun _ => "Failed to fetch") e)
                  (set_value "gone_learnings.json" default_viewer)))).
Proof.
  assert (typeFilter default_viewer <> "error") as Htf by discriminate.
  exact (manifest_failed_selection_shows_error paragraph no_converter
           no_engine (fun _ => "Failed to fetch") (fun _ => Rejected)
           "gone_learnings.json" default_viewer Htf (or_introl eq_refl)).
Defined.

Lemma buttons_ignore_entry_order_witness :
  category_types [entry "b" "1"; entry "a" "2"; entry "c" "3"] =
  category_types [entry "c" "3"; entry "a" "2"; entry "b" "1"; entry "a" "2"].
Proof.
  assert (forall item,
             In item [entry "b" "1"; entry "a" "2"; entry "c" "3"] <->
             In item [entry "c" "3"; entry "a" "2"; entry "b" "1";
                      entry "a" "2"]) as Hsame.
  { intros item. simpl. tauto. }
  assert (forall t,
             In t (category_types [entry "b" "1"; entry "a" "2";
                                   entry "c" "3"]) ->
             exists s, t = JStr s) as Hstr.
  { intros t [<- | [<- | [<- | []]]]; eexists; reflexivity. }
  exact (buttons_ignore_entry_order _ _ Hsame Hstr).
Defined.

Lemma highlight_plain_filter_witness :
  exists out,
    wrapped "Testing Frameworks" (highlight_marker "Testing Frameworks")
      "Testing Frameworks: Jest" out /\
    render_item paragraph no_converter no_engine default_viewer "tech_choices"
      (entry "tech_choices" "Testing Frameworks: Jest") =
    Returns ("<div>" ++ paragraph out ++ "</div>").
Proof.
  assert (contentFilter default_viewer <> "") as Hne by discriminate.
  exact (highlight_plain_filter paragraph no_converter no_engine
           default_viewer "Testing Frameworks: Jest"
           [("type", JStr "tech_choices");
            ("summary", JStr "Testing Frameworks: Jest")]
           eq_refl Hne eq_refl eq_refl).
Defined.

Lemma no_highlight_elsewhere_witness :
  render_item paragraph no_converter no_engine default_viewer "architecture"
    (entry "architecture" "No Testing Frameworks here") =
  Returns ("<div>" ++ paragraph "No Testing Frameworks here" ++ "</div>").
Proof.
  assert ("architecture" <> typeFilter default_viewer) as Ht by discriminate.
  assert ("No Testing Frameworks here" <> "") as Hs by discriminate.
  exact (no_highlight_elsewhere paragraph no_converter no_engine
           default_viewer "architecture" "No Testing Frameworks here"
           [("type", JStr "architecture");
            ("summary", JStr "No Testing Frameworks here")]
           Ht eq_refl Hs).
Defined.

Lemma discovery_display_policy_witness :
  let net := fun (n : nat) (_ : string) =>
               match n with
               | 0 => Response true 200 (Some "application/json")
                        (Some (JArr [JStr "a_learnings.json"; JStr "notes.txt";
                                     JStr "b_learnings.json"]))
               | 1 => Response true 200 (Some "application/json")
                        (Some (JArr [entry "architecture" "Layered"]))
               | 2 => Rejected
               | _ => Response true 200 (Some "application/json")
                        (Some (JArr [entry "architecture" "Layered"]))
               end in
  fileSelect_options
    (Manifest.fetchJsonFiles paragraph no_converter no_engine
       (fun _ => "Failed to fetch") net default_viewer) =
  ["a_learnings.json"; "b_learnings.json"].
Proof.
  intros net.
  assert (forall f d,
             In (f, d)
               (manifest_probes (fun _ => "Failed to fetch") net default_viewer
                  1 ["a_learnings.json"; "b_learnings.json"]) ->
             exists doc, d = JArr doc) as Harr.
  { intros f d Hin. vm_compute in Hin.
    destruct Hin as [E | [E | []]]; injection E as _ <-;
      eexists; reflexivity. }
  exact (proj2
           (proj2 (discovery_display_policy paragraph no_converter no_engine []
                     (fun _ => "Failed to fetch") net default_viewer)
              true 200 (Some "application/json")
              ["a_learnings.json"; "notes.txt"; "b_learnings.json"]
              eq_refl Harr)).
Defined.


